(** * GroundingDINO integration shim ([scripts/dino.py]): model and properties

    A shallow embedding of [scripts/dino.py].  The Python module keeps one
    global [OrderedDict] of loaded models, talks to host libraries (torch,
    groundingdino, cv2, PIL, the web UI's [launch]/[shared] modules) and does
    a little arithmetic on float32 tensors.

    - Host libraries are not part of the module: their behaviour is a record
      of oracles ([env], [cv2_api]) over an opaque type [Obj] of Python
      objects.  A call that may raise returns a [result].
    - Module state is a [world]: the cache, the store of [nn.Module] objects
      the handles point to, and the trace of observable effects.
    - Tensor elements are values of a [Scalar] type.  Two instances are
      given: IEEE binary32 (what torch computes with by default) and exact
      rationals (the arithmetic the formulas are written in). *)

From Stdlib Require Import ZArith QArith Qabs Lqa List String Ascii Bool Lia.
From Stdlib Require Import DecimalString.
From Stdlib Require Import Floats.SpecFloat.
Import ListNotations.

Set Implicit Arguments.

(** ** Exceptions and results *)

Inductive exn : Type :=
| KeyError (key : string)
| IndexError (msg : string)
| HostError (msg : string)
| KeyboardInterrupt
| SystemExit.

(** [isinstance(x, Exception)]: what [except Exception] catches.
    [KeyboardInterrupt] and [SystemExit] derive from [BaseException] only;
    [HostError] stands for any other error a host library raises. *)
Definition is_Exception (x : exn) : bool :=
  match x with
  | KeyboardInterrupt | SystemExit => false
  | _ => true
  end.

Inductive result (A : Type) : Type :=
| Ok (a : A)
| Raise (x : exn).
Arguments Ok {A} a.
Arguments Raise {A} x.

(** ** Strings: the fragment of [str] and [os.path] the module uses *)

Definition is_space (c : ascii) : bool :=
  let n := nat_of_ascii c in
  ((9 <=? n) && (n <=? 13)) || ((28 <=? n) && (n <=? 32)).

Definition lower_ascii (c : ascii) : ascii :=
  let n := nat_of_ascii c in
  if (65 <=? n) && (n <=? 90) then ascii_of_nat (n + 32) else c.

(** [str.lower], on the ASCII range. *)
Fixpoint lower (s : string) : string :=
  match s with
  | EmptyString => EmptyString
  | String c s' => String (lower_ascii c) (lower s')
  end.

Fixpoint lstrip (s : string) : string :=
  match s with
  | EmptyString => EmptyString
  | String c s' => if is_space c then lstrip s' else s
  end.

Fixpoint rstrip (s : string) : string :=
  match s with
  | EmptyString => EmptyString
  | String c s' =>
      match rstrip s' with
      | EmptyString => if is_space c then EmptyString else String c EmptyString
      | r => String c r
      end
  end.

(** [str.strip] with no argument. *)
Definition strip (s : string) : string := rstrip (lstrip s).

(** [s.endswith(c)] for a one-character suffix. *)
Fixpoint endswith_char (c : ascii) (s : string) : bool :=
  match s with
  | EmptyString => false
  | String d EmptyString => Ascii.eqb d c
  | String _ s' => endswith_char c s'
  end.

(** [os.path.join a b] on a POSIX host. *)
Definition path_join (a b : string) : string :=
  match b with
  | String "/"%char _ => b
  | _ =>
      if (String.eqb a "" || endswith_char "/"%char a)%bool
      then (a ++ b)%string
      else (a ++ "/" ++ b)%string
  end.

(** ** Tensor elements

    The operations the module applies to tensor elements, as an interface.
    [of_Z] is the conversion [torch.Tensor([W, H, W, H])] performs on Python
    ints; [gtb] is elementwise [>]; [max2] is the binary step of
    [Tensor.max]. *)

Class Scalar (T : Type) : Type := {
  add : T -> T -> T;
  sub : T -> T -> T;
  mul : T -> T -> T;
  div : T -> T -> T;
  of_Z : Z -> T;
  gtb : T -> T -> bool;
  max2 : T -> T -> T
}.

(** IEEE 754 binary32 with round-to-nearest-even: torch's default dtype. *)
Definition binary32 : Type := spec_float.

Definition b32_prec : Z := 24.
Definition b32_emax : Z := 128.

Definition b32_is_nan (x : binary32) : bool :=
  match x with S754_nan => true | _ => false end.

(** [Tensor.max] propagates NaN. *)
Definition b32_max (x y : binary32) : binary32 :=
  if b32_is_nan x then x
  else if b32_is_nan y then y
  else if SFltb x y then y else x.

#[export] Instance Scalar_binary32 : Scalar binary32 := {
  add := SFadd b32_prec b32_emax;
  sub := SFsub b32_prec b32_emax;
  mul := SFmul b32_prec b32_emax;
  div := SFdiv b32_prec b32_emax;
  of_Z := fun z => binary_normalize b32_prec b32_emax z 0 false;
  gtb := fun x y => SFltb y x;
  max2 := b32_max
}.

(** Exact rational arithmetic. *)
#[export] Instance Scalar_Q : Scalar Q := {
  add := Qplus;
  sub := Qminus;
  mul := Qmult;
  div := Qdiv;
  of_Z := inject_Z;
  gtb := fun x y => negb (Qle_bool x y);
  max2 := fun x y => if Qle_bool x y then y else x
}.

(** The binary32 value nearest to the rational [a/b]. *)
Definition b32_of_ratio (a b : Z) : binary32 :=
  div (of_Z a : binary32) (of_Z b).

(** ** Objects, effects and module state *)

(** A handle is the identity of an [nn.Module] object: its index in the
    store.  Image arrays are referred to the same way. *)
Definition handle : Type := nat.

(** [torch.device]: [modules.devices.cpu] or an accelerator. *)
Inductive torch_device : Type := Cpu | Accelerator.

(** In-place update of the cell at index [i]; nothing happens out of range. *)
Fixpoint upd {A : Type} (l : list A) (i : nat) (f : A -> A) : list A :=
  match l, i with
  | [], _ => []
  | x :: l', O => f x :: l'
  | x :: l', S i' => x :: upd l' i' f
  end.

(** Observable effects, recorded newest first. *)
Inductive event : Type :=
| EvPrint (s : string)
| EvPrintExc
| EvGcCollect
| EvTorchGc
| EvRunPip (args desc : string)
| EvFromfile (path : string)
| EvBuildModel
| EvDownload (url dir : string)
| EvLoadStateDict (h : handle)
| EvModuleTo (h : handle) (d : torch_device)
| EvEval (h : handle)
| EvForward (h : handle) (caption : string).

Section Host.

Context {T : Type} {Obj : Type}.

(** The mutable part of an [nn.Module]: its parameters, where they live, and
    the train/eval flag. *)
Record module_state : Type := {
  net : Obj;
  placed_on : torch_device;
  training : bool
}.

Definition set_net (n : Obj) (m : module_state) : module_state :=
  {| net := n; placed_on := placed_on m; training := training m |}.

Definition set_device (d : torch_device) (m : module_state) : module_state :=
  {| net := net m; placed_on := d; training := training m |}.

Definition set_eval (m : module_state) : module_state :=
  {| net := net m; placed_on := placed_on m; training := false |}.

(** A box as a row of a [(n, 4)] tensor. *)
Definition box : Type := (T * T * T * T)%type.

(** The dictionary the model returns, with its batch dimension. *)
Record outputs : Type := {
  pred_logits : list (list (list T));
  pred_boxes : list (list box)
}.

(** Module state: the global [dino_model_cache] (an [OrderedDict], so an
    association list in insertion order), the module objects, the trace. *)
Record world : Type := {
  dino_model_cache : list (string * handle);
  modules : list module_state;
  trace : list event
}.

(** State at import time. *)
Definition init_world : world :=
  {| dino_model_cache := []; modules := []; trace := [] |}.

(** What the module imports from its host. *)
Record env : Type := {
  lowvram : bool;
  device : torch_device;
  basedir : string;
  is_installed : string -> result bool;
  run_pip : string -> string -> result unit;
  SLConfig_fromfile : string -> result Obj;
  build_model : Obj -> result Obj;
  load_state_dict_from_url : string -> string -> result Obj;
  getitem : Obj -> string -> result Obj;
  clean_state_dict : Obj -> Obj;
  load_state_dict : Obj -> Obj -> result Obj;
  pil_size : Obj -> Z * Z;
  pil_convert : Obj -> string -> result Obj;
  transform : Obj -> result Obj;
  tensor_to : Obj -> torch_device -> Obj;
  forward : module_state -> Obj -> string -> result outputs;
  sigmoid : T -> T
}.

(** *** The state-and-exception monad

    A raised exception keeps the state reached so far, as in Python. *)

Definition M (A : Type) : Type := world -> result A * world.

Definition ret {A : Type} (a : A) : M A := fun w => (Ok a, w).

Definition raise {A : Type} (x : exn) : M A := fun w => (Raise x, w).

Definition bind {A B : Type} (c : M A) (k : A -> M B) : M B :=
  fun w =>
    match c w with
    | (Ok a, w') => k a w'
    | (Raise x, w') => (Raise x, w')
    end.

(** An external call that may raise. *)
Definition call {A : Type} (r : result A) : M A := fun w => (r, w).

Definition emit (ev : event) : M unit :=
  fun w =>
    (Ok tt, {| dino_model_cache := dino_model_cache w;
               modules := modules w;
               trace := ev :: trace w |}).

Definition print (s : string) : M unit := emit (EvPrint s).

Definition get_cache : M (list (string * handle)) :=
  fun w => (Ok (dino_model_cache w), w).

Definition put_cache (c : list (string * handle)) : M unit :=
  fun w =>
    (Ok tt, {| dino_model_cache := c; modules := modules w; trace := trace w |}).

Definition put_modules (ms : list module_state) : M unit :=
  fun w =>
    (Ok tt, {| dino_model_cache := dino_model_cache w;
               modules := ms;
               trace := trace w |}).

Definition get_modules : M (list module_state) :=
  fun w => (Ok (modules w), w).

End Host.

Arguments module_state : clear implicits.
Arguments box : clear implicits.
Arguments outputs : clear implicits.
Arguments world : clear implicits.
Arguments env : clear implicits.
Arguments M : clear implicits.
Arguments init_world : clear implicits.

Declare Scope dino_scope.
Delimit Scope dino_scope with dino.
Notation "x <- c ;; k" := (bind c (fun x => k))
  (at level 61, c at next level, right associativity) : dino_scope.
Notation "c ;; k" := (bind c (fun _ => k))
  (at level 61, right associativity) : dino_scope.

Local Open Scope dino_scope.
Local Open Scope string_scope.

(** ** The module proper *)

Section Dino.

Context {T : Type} {ST : Scalar T} {Obj : Type}.

Local Abbreviation env := (env T Obj).
Local Abbreviation world := (world Obj).
Local Abbreviation M := (M Obj).

(** *** Model registry *)

Record model_info : Type := {
  checkpoint : string;
  config : string;
  url : string
}.

Definition dino_model_dir (e : env) : string :=
  path_join (basedir e) "models/grounding-dino".

Definition dino_model_list : list string :=
  ["GroundingDINO_SwinT_OGC (694MB)"; "GroundingDINO_SwinB (938MB)"].

Definition dino_model_info (e : env) : list (string * model_info) :=
  [ ("GroundingDINO_SwinT_OGC (694MB)",
     {| checkpoint := "groundingdino_swint_ogc.pth";
        config := path_join (dino_model_dir e) "GroundingDINO_SwinT_OGC.py";
        url := "https://huggingface.co/ShilongLiu/GroundingDINO/resolve/main/groundingdino_swint_ogc.pth" |});
    ("GroundingDINO_SwinB (938MB)",
     {| checkpoint := "groundingdino_swinb_cogcoor.pth";
        config := path_join (dino_model_dir e) "GroundingDINO_SwinB.cfg.py";
        url := "https://huggingface.co/ShilongLiu/GroundingDINO/resolve/main/groundingdino_swinb_cogcoor.pth" |}) ].

Definition dino_install_issue_text : string :=
  "submit an issue to https://github.com/IDEA-Research/Grounded-Segment-Anything/issues.".

(** Dictionary lookup, [d[k]] and [k in d]. *)
Fixpoint dict_get {V : Type} (k : string) (d : list (string * V)) : option V :=
  match d with
  | [] => None
  | (k', v) :: d' => if String.eqb k k' then Some v else dict_get k d'
  end.

(** [d[k] = v]: an existing key keeps its position, a new one goes last. *)
Fixpoint dict_set {V : Type} (k : string) (v : V) (d : list (string * V))
  : list (string * V) :=
  match d with
  | [] => [(k, v)]
  | (k', v') :: d' =>
      if String.eqb k k' then (k, v) :: d' else (k', v') :: dict_set k v d'
  end.

Definition info_lookup (e : env) (name : string) : M model_info :=
  match dict_get name (dino_model_info e) with
  | Some i => ret i
  | None => raise (KeyError name)
  end.

(** *** [install_goundingdino] *)

(** [import launch] and [launch.is_installed] run outside the [try]: what
    they raise propagates.  [launch.run_pip] runs inside it, and the handler
    is [except Exception]: anything else it raises propagates as well. *)
Definition install_goundingdino (e : env) : M bool :=
  installed <- call (is_installed e "groundingdino") ;;
  if installed then ret true
  else
    emit (EvRunPip "install git+https://github.com/IDEA-Research/GroundingDINO"
                   "sd-webui-segment-anything requirement: groundingdino") ;;
    match run_pip e "install git+https://github.com/IDEA-Research/GroundingDINO"
                    "sd-webui-segment-anything requirement: groundingdino" with
    | Ok _ =>
        print "GroundingDINO install success." ;;
        ret true
    | Raise x =>
        if is_Exception x then
          emit EvPrintExc ;;
          print "None" ;;
          print ("GroundingDINO install failed. Please " ++ dino_install_issue_text) ;;
          ret false
        else raise x
    end.

(** *** Model cache *)

Definition gc_collect : M unit := emit EvGcCollect.
Definition torch_gc : M unit := emit EvTorchGc.

Definition clear_dino_cache : M unit :=
  put_cache [] ;;
  gc_collect ;;
  torch_gc.

(** [dino.to(device=d)] *)
Definition module_to (h : handle) (d : torch_device) : M unit :=
  ms <- get_modules ;;
  put_modules (upd ms h (set_device d)) ;;
  emit (EvModuleTo h d).

(** [dino.eval()] *)
Definition module_eval (h : handle) : M unit :=
  ms <- get_modules ;;
  put_modules (upd ms h set_eval) ;;
  emit (EvEval h).

(** A freshly built module: on the CPU, in training mode. *)
Definition new_module (n : Obj) : M handle :=
  ms <- get_modules ;;
  put_modules (ms ++ [{| net := n; placed_on := Cpu; training := true |}])%list ;;
  ret (List.length ms).

(** [dino.load_state_dict(sd, strict=False)] *)
Definition module_load_state_dict (e : env) (h : handle) (sd : Obj) : M unit :=
  ms <- get_modules ;;
  match nth_error ms h with
  | None => raise (HostError "no such module")
  | Some m =>
      emit (EvLoadStateDict h) ;;
      n <- call (load_state_dict e (net m) sd) ;;
      put_modules (upd ms h (set_net n))
  end.

Definition load_dino_model (e : env) (dino_checkpoint : string) : M handle :=
  print ("Initializing GroundingDINO " ++ dino_checkpoint) ;;
  cache <- get_cache ;;
  dino <-
    match dict_get dino_checkpoint cache with
    | Some dino =>
        (if lowvram e then module_to dino (device e) else ret tt) ;;
        ret dino
    | None =>
        clear_dino_cache ;;
        info <- info_lookup e dino_checkpoint ;;
        emit (EvFromfile (config info)) ;;
        args <- call (SLConfig_fromfile e (config info)) ;;
        emit EvBuildModel ;;
        built <- call (build_model e args) ;;
        dino <- new_module built ;;
        info' <- info_lookup e dino_checkpoint ;;
        emit (EvDownload (url info') (dino_model_dir e)) ;;
        checkpoint <- call (load_state_dict_from_url e (url info') (dino_model_dir e)) ;;
        sd <- call (getitem e checkpoint "model") ;;
        module_load_state_dict e dino (clean_state_dict e sd) ;;
        module_to dino (device e) ;;
        cache' <- get_cache ;;
        put_cache (dict_set dino_checkpoint dino cache') ;;
        ret dino
    end ;;
  module_eval dino ;;
  ret dino.

(** *** Inference *)

Definition load_dino_image (e : env) (image_pil : Obj) : M Obj :=
  call (transform e image_pil).

(** Pure results: the exception monad without state. *)
Definition rbind {A B : Type} (r : result A) (k : A -> result B) : result B :=
  match r with
  | Ok a => k a
  | Raise x => Raise x
  end.

(** [t[0]] *)
Definition index0 {A : Type} (l : list A) : result A :=
  match l with
  | [] => Raise (IndexError "index 0 is out of bounds")
  | x :: _ => Ok x
  end.

(** [row.max()]: a reduction over an empty dimension raises. *)
Definition row_max (row : list T) : result T :=
  match row with
  | [] => Raise (IndexError "max(): reduction dim has zero size")
  | x :: r => Ok (fold_left max2 r x)
  end.

(** [t.max(dim=1)[0]] *)
Fixpoint max_dim1 (t : list (list T)) : result (list T) :=
  match t with
  | [] => Ok []
  | row :: t' =>
      rbind (row_max row) (fun m =>
      rbind (max_dim1 t') (fun ms => Ok (m :: ms)))
  end.

(** [t[mask]] for a boolean mask over the first dimension. *)
Fixpoint mask_index {A : Type} (t : list A) (mask : list bool) : result (list A) :=
  match t, mask with
  | [], [] => Ok []
  | x :: t', b :: mask' =>
      rbind (mask_index t' mask') (fun r => Ok (if b then x :: r else r))
  | _, _ => Raise (IndexError "mask shape does not match tensor shape")
  end.

(** Lines 121-126 of [get_grounding_output]: both filtered tensors. *)
Definition filter_output (logits : list (list T)) (boxes : list (box T))
    (box_threshold : T) : result (list (list T) * list (box T)) :=
  let logits_filt := logits in
  let boxes_filt := boxes in
  rbind (max_dim1 logits_filt) (fun maxes =>
  let filt_mask := map (fun m => gtb m box_threshold) maxes in
  rbind (mask_index logits_filt filt_mask) (fun logits_filt =>
  rbind (mask_index boxes_filt filt_mask) (fun boxes_filt =>
  Ok (logits_filt, boxes_filt)))).

(** [caption.lower().strip()], with a final period added when missing. *)
Definition normalize_caption (caption : string) : string :=
  let caption := lower caption in
  let caption := strip caption in
  if negb (endswith_char "."%char caption) then caption ++ "." else caption.

(** [model(image[None], captions=[caption])] *)
Definition call_model (e : env) (model : handle) (image : Obj) (caption : string)
  : M (outputs T) :=
  ms <- get_modules ;;
  match nth_error ms model with
  | None => raise (HostError "no such module")
  | Some m =>
      emit (EvForward model caption) ;;
      call (forward e m image caption)
  end.

Definition get_grounding_output (e : env) (model : handle) (image : Obj)
    (caption : string) (box_threshold : T) : M (list (box T)) :=
  let caption := normalize_caption caption in
  let image := tensor_to e image (device e) in
  outs <- call_model e model image caption ;;
  (if lowvram e then module_to model Cpu else ret tt) ;;
  logits <- call (index0 (map (map (map (sigmoid e))) (pred_logits outs))) ;;
  boxes <- call (index0 (pred_boxes outs)) ;;
  filtered <- call (filter_output logits boxes box_threshold) ;;
  ret (snd filtered).

(** Body of the rescaling loop, lines 145-147, on row [i]. *)
Definition rescale_row (W H : Z) (b : box T) : box T :=
  let '(b0, b1, b2, b3) := b in
  let '(b0, b1, b2, b3) :=
    (mul b0 (of_Z W), mul b1 (of_Z H), mul b2 (of_Z W), mul b3 (of_Z H)) in
  let '(b0, b1) := (sub b0 (div b2 (of_Z 2)), sub b1 (div b3 (of_Z 2))) in
  let '(b2, b3) := (add b2 b0, add b3 b1) in
  (b0, b1, b2, b3).

(** [for i in range(boxes_filt.size(0)): ...], updating in place. *)
Definition rescale_loop (W H : Z) (boxes_filt : list (box T)) : list (box T) :=
  fold_left (fun bs i => upd bs i (rescale_row W H))
            (seq 0 (List.length boxes_filt)) boxes_filt.

Definition dino_predict_internal (e : env) (input_image : Obj)
    (dino_model_name text_prompt : string) (box_threshold : T)
  : M (option (list (box T)) * bool) :=
  install_success <- install_goundingdino e ;;
  if negb install_success then ret (None, false)
  else
    print "Running GroundingDINO Inference" ;;
    rgb <- call (pil_convert e input_image "RGB") ;;
    dino_image <- load_dino_image e rgb ;;
    dino_model <- load_dino_model e dino_model_name ;;
    boxes_filt <- get_grounding_output e dino_model dino_image text_prompt
                                       box_threshold ;;
    let H := snd (pil_size e input_image) in
    let W := fst (pil_size e input_image) in
    let boxes_filt := rescale_loop W H boxes_filt in
    gc_collect ;;
    torch_gc ;;
    ret (Some boxes_filt, true).

End Dino.

(** *** Reachable module states

    The states the module can be in: what the public functions make of the
    state at import time, whatever the host does at each call. *)

Section Reachable.

Context {T : Type} {ST : Scalar T} {Obj : Type}.

Inductive reachable : world Obj -> Prop :=
| reach_init : reachable (init_world Obj)
| reach_install (e : env T Obj) w :
    reachable w -> reachable (snd (install_goundingdino e w))
| reach_clear w :
    reachable w -> reachable (snd (clear_dino_cache w))
| reach_load (e : env T Obj) name w :
    reachable w -> reachable (snd (load_dino_model e name w))
| reach_grounding (e : env T Obj) model image caption thr w :
    reachable w ->
    reachable (snd (get_grounding_output e model image caption thr w))
| reach_predict (e : env T Obj) image name prompt thr w :
    reachable w ->
    reachable (snd (dino_predict_internal e image name prompt thr w)).

(** The cache invariant: zero or one entry. *)
Definition single_slot (w : world Obj) : Prop :=
  (List.length (dino_model_cache w) <= 1)%nat.

(** Every cached handle refers to a module that exists and is in
    evaluation mode. *)
Definition cached_models_ready (w : world Obj) : Prop :=
  forall name h,
    dict_get name (dino_model_cache w) = Some h ->
    exists m, nth_error (modules w) h = Some m /\ training m = false.

(** A query of the model output is kept when the maximum of its class
    confidences is above the threshold. *)
Definition keeps (box_threshold : T) (q : list T * box T) : bool :=
  match row_max (fst q) with
  | Ok m => gtb m box_threshold
  | Raise _ => false
  end.

(** The ways building a model can fail after the cache was cleared:
    parsing the config, downloading the checkpoint, reading its ['model']
    entry, loading its weights. *)
Inductive load_failure (e : env T Obj) (name : string) (x : exn) : Prop :=
| config_parse_fails info :
    dict_get name (dino_model_info e) = Some info ->
    SLConfig_fromfile e (config info) = Raise x ->
    load_failure e name x
| download_fails info args built :
    dict_get name (dino_model_info e) = Some info ->
    SLConfig_fromfile e (config info) = Ok args ->
    build_model e args = Ok built ->
    load_state_dict_from_url e (url info) (dino_model_dir e) = Raise x ->
    load_failure e name x
| checkpoint_read_fails info args built ckpt :
    dict_get name (dino_model_info e) = Some info ->
    SLConfig_fromfile e (config info) = Ok args ->
    build_model e args = Ok built ->
    load_state_dict_from_url e (url info) (dino_model_dir e) = Ok ckpt ->
    getitem e ckpt "model" = Raise x ->
    load_failure e name x
| weights_load_fails info args built ckpt sd :
    dict_get name (dino_model_info e) = Some info ->
    SLConfig_fromfile e (config info) = Ok args ->
    build_model e args = Ok built ->
    load_state_dict_from_url e (url info) (dino_model_dir e) = Ok ckpt ->
    getitem e ckpt "model" = Ok sd ->
    load_state_dict e built (clean_state_dict e sd) = Raise x ->
    load_failure e name x.

End Reachable.

(** ** [show_boxes] *)

Section Renderer.

(** Array values; [cv2] draws on them in place. *)
Context {Img : Type}.

Definition color : Type := (Z * Z * Z * Z)%type.

Record cv2_api : Type := {
  rectangle : Img -> Z * Z -> Z * Z -> color -> Z -> Img;
  getTextSize : string -> Z -> Z -> Z -> (Z * Z) * Z;
  putText : Img -> string -> Z * Z -> Z -> Z -> color -> Z -> Img
}.

Definition FONT_HERSHEY_SIMPLEX : Z := 0.

(** [str(idx)] *)
Definition str (idx : nat) : string := NilZero.string_of_uint (Nat.to_uint idx).

(** [copy.deepcopy]: a new object with the same content. *)
Definition deepcopy (r : handle) (heap : list Img) : result handle * list Img :=
  match nth_error heap r with
  | Some v => (Ok (List.length heap), (heap ++ [v])%list)
  | None => (Raise (HostError "no such object"), heap)
  end.

(** One iteration of the drawing loop. *)
Definition draw_box (cv : cv2_api) (col : color) (thickness : Z)
    (show_index : bool) (image : handle) (idx : nat) (b : Z * Z * Z * Z)
    (heap : list Img) : list Img :=
  let '(x, y, w, h) := b in
  let heap := upd heap image (fun im => rectangle cv im (x, y) (w, h) col thickness) in
  if show_index then
    let font := FONT_HERSHEY_SIMPLEX in
    let text := str idx in
    let textsize := fst (getTextSize cv text font 1 2) in
    upd heap image
        (fun im => putText cv im text (x, y + snd textsize)%Z font 1 col thickness)
  else heap.

(** [for idx, box in enumerate(boxes)], counting from [idx]. *)
Fixpoint draw_boxes (cv : cv2_api) (col : color) (thickness : Z)
    (show_index : bool) (image : handle) (idx : nat)
    (boxes : list (Z * Z * Z * Z)) (heap : list Img) : list Img :=
  match boxes with
  | [] => heap
  | b :: boxes' =>
      draw_boxes cv col thickness show_index image (S idx) boxes'
                 (draw_box cv col thickness show_index image idx b heap)
  end.

Definition show_boxes (cv : cv2_api) (image_np : handle)
    (boxes : option (list (Z * Z * Z * Z))) (col : color) (thickness : Z)
    (show_index : bool) (heap : list Img) : result handle * list Img :=
  match boxes with
  | None => (Ok image_np, heap)
  | Some boxes =>
      match deepcopy image_np heap with
      | (Ok image, heap') =>
          (Ok image, draw_boxes cv col thickness show_index image 0 boxes heap')
      | (Raise x, heap') => (Raise x, heap')
      end
  end.

(** Default arguments of [show_boxes]. *)
Definition default_color : color := (255, 0, 0, 255)%Z.
Definition default_thickness : Z := 2.
Definition default_show_index : bool := false.

(** The returned handle is a different object holding what [image_np] held. *)
Definition is_copy (heap heap' : list Img) (image_np image : handle) : Prop :=
  image <> image_np /\
  nth_error heap' image = nth_error heap image_np /\
  nth_error heap image_np <> None.

End Renderer.

Arguments cv2_api : clear implicits.

(** ** Box formats *)

Section Boxes.

Context {T : Type} {ST : Scalar T}.

(** The corner box of a normalized centre-size box, as the specification
    writes it: [(cx W - w W / 2, cy H - h H / 2, cx W + w W / 2,
    cy H + h H / 2)]. *)
Definition corner_box_formula (W H : Z) (b : box T) : box T :=
  let '(cx, cy, w, h) := b in
  (sub (mul cx (of_Z W)) (div (mul w (of_Z W)) (of_Z 2)),
   sub (mul cy (of_Z H)) (div (mul h (of_Z H)) (of_Z 2)),
   add (mul cx (of_Z W)) (div (mul w (of_Z W)) (of_Z 2)),
   add (mul cy (of_Z H)) (div (mul h (of_Z H)) (of_Z 2))).

(** Modelled from the spec: the inverse transform of the round-trip
    property, which [scripts/dino.py] does not contain.  A corner box is
    converted back to centre-size form (size = bottom-right - top-left,
    centre = top-left + size / 2) and divided by the image dimensions. *)
Definition corner_to_normalized_center (W H : Z) (b : box T) : box T :=
  let '(x0, y0, x1, y1) := b in
  let w := sub x1 x0 in
  let h := sub y1 y0 in
  let cx := add x0 (div w (of_Z 2)) in
  let cy := add y0 (div h (of_Z 2)) in
  (div cx (of_Z W), div cy (of_Z H), div w (of_Z W), div h (of_Z H)).

(** A piecewise-linear stand-in for the logistic function, exact at 0. *)
Definition hard_sigmoid (x : T) : T :=
  let y := add (div (of_Z 1) (of_Z 2)) (div x (of_Z 4)) in
  if gtb y (of_Z 1) then of_Z 1
  else if gtb (of_Z 0) y then of_Z 0
  else y.

(** A model output with a single query. *)
Definition one_query (logit : T) (b : box T) : outputs T :=
  {| pred_logits := [[[logit; of_Z (-8)]]]; pred_boxes := [[b]] |}.

(** A host whose objects are named by strings and whose model always
    answers [outs]; the flags choose which external calls succeed. *)
Definition stub_env (low installed pip_ok cfg_ok download_ok : bool)
    (size : Z * Z) (outs : outputs T) : env T string :=
  {| lowvram := low;
     device := Accelerator;
     basedir := "/webui/extensions/sd-webui-segment-anything";
     is_installed := fun _ => Ok installed;
     run_pip := fun _ _ =>
       if pip_ok then Ok tt else Raise (HostError "pip failed");
     SLConfig_fromfile := fun path =>
       if cfg_ok then Ok ("config " ++ path)
       else Raise (HostError "config parse failed");
     build_model := fun args => Ok ("model of " ++ args);
     load_state_dict_from_url := fun u _ =>
       if download_ok then Ok ("checkpoint " ++ u)
       else Raise (HostError "download failed");
     getitem := fun o k => Ok (o ++ "[" ++ k ++ "]");
     clean_state_dict := fun sd => sd;
     load_state_dict := fun n sd => Ok (n ++ " with " ++ sd);
     pil_size := fun _ => size;
     pil_convert := fun im mode => Ok (im ++ " as " ++ mode);
     transform := fun im => Ok ("tensor of " ++ im);
     tensor_to := fun t _ => t;
     forward := fun _ _ _ => Ok outs;
     sigmoid := hard_sigmoid |}.

End Boxes.

(** Componentwise equality of boxes of rationals. *)
Definition box_eq (a b : box Q) : Prop :=
  let '(a0, a1, a2, a3) := a in
  let '(b0, b1, b2, b3) := b in
  a0 == b0 /\ a1 == b1 /\ a2 == b2 /\ a3 == b3.

(** Width and height of a normalized box are positive. *)
Definition positive_size (b : box Q) : Prop :=
  let '(_, _, w, h) := b in 0 < w /\ 0 < h.

(** The corners of a box are in order. *)
Definition corners_ordered (b : box Q) : Prop :=
  let '(x0, y0, x1, y1) := b in x0 < x1 /\ y0 < y1.

(** Strictly ordered corners, for binary32 boxes. *)
Definition b32_corners_ordered (b : box binary32) : bool :=
  let '(x0, y0, x1, y1) := b in SFltb x0 x1 && SFltb y0 y1.

Definition b32_positive_size (b : box binary32) : bool :=
  let '(_, _, w, h) := b in
  SFltb (of_Z 0) w && SFltb (of_Z 0) h.

(** A drawing surface that remembers the commands applied to it. *)
Inductive draw_cmd : Type :=
| DrawRect (p q : Z * Z) (c : color) (thickness : Z)
| DrawText (s : string) (p : Z * Z) (c : color) (thickness : Z).

Definition canvas : Type := list draw_cmd.

Definition canvas_cv2 : cv2_api canvas :=
  {| rectangle := fun im p q c t => (im ++ [DrawRect p q c t])%list;
     getTextSize := fun s _ _ _ =>
       ((20 * Z.of_nat (String.length s), 22), 10)%Z;
     putText := fun im s p _ _ c t => (im ++ [DrawText s p c t])%list |}.

(** ** Test scenarios

    The end-to-end scenario of the specification: a 640x480 image, the
    prompt ["a cat."], threshold 0.35 and a model answering one query
    whose raw logit is [logit], with box (0.5, 0.5, 0.2, 0.4). *)

Definition swint : string := "GroundingDINO_SwinT_OGC (694MB)".
Definition swinb : string := "GroundingDINO_SwinB (938MB)".

Definition cat_box_b32 : box binary32 :=
  (b32_of_ratio 1 2, b32_of_ratio 1 2, b32_of_ratio 1 5, b32_of_ratio 2 5).

Definition cat_box_Q : box Q := (1 # 2, 1 # 2, 1 # 5, 2 # 5).

Definition cat_env_b32 (logit : binary32) : env binary32 string :=
  stub_env false true true true true (640, 480)%Z (one_query logit cat_box_b32).

Definition cat_env_Q (logit : Q) : env Q string :=
  stub_env false true true true true (640, 480)%Z (one_query logit cat_box_Q).

(** A box whose width and height are 2^-30 of the image. *)
Definition thin_box : box binary32 :=
  (b32_of_ratio 1 2, b32_of_ratio 1 2,
   b32_of_ratio 1 1073741824, b32_of_ratio 1 1073741824).

Definition thin_env : env binary32 string :=
  stub_env false true true true true (640, 480)%Z
           (one_query (of_Z 0) thin_box).

(** A box of size 3 * 2^-24 centred on the far corner of a 1x1 image. *)
Definition skew_box : box binary32 :=
  (of_Z 1, of_Z 1, b32_of_ratio 3 16777216, b32_of_ratio 3 16777216).

Definition skew_env : env binary32 string :=
  stub_env false true true true true (1, 1)%Z (one_query (of_Z 0) skew_box).



(** Hosts on which a step fails: no groundingdino and no way to install
    it; an unreadable config; an unreachable checkpoint. *)
Definition no_dino_env : env binary32 string :=
  stub_env false false false true true (640, 480)%Z
           (one_query (of_Z 0) cat_box_b32).

Definition bad_config_env : env binary32 string :=
  stub_env false true true false true (640, 480)%Z
           (one_query (of_Z 0) cat_box_b32).

Definition low_memory_env : env binary32 string :=
  stub_env true true true true true (640, 480)%Z
           (one_query (of_Z 0) cat_box_b32).

Definition offline_env : env binary32 string :=
  stub_env true true true true false (640, 480)%Z
           (one_query (of_Z 0) cat_box_b32).

(** A host that differs from [e] in its forward pass, or in its image
    transform. *)
Definition with_forward {T Obj : Type} (e : env T Obj)
    (f : module_state Obj -> Obj -> string -> result (outputs T))
  : env T Obj :=
  {| lowvram := lowvram e; device := device e; basedir := basedir e;
     is_installed := is_installed e; run_pip := run_pip e;
     SLConfig_fromfile := SLConfig_fromfile e; build_model := build_model e;
     load_state_dict_from_url := load_state_dict_from_url e;
     getitem := getitem e; clean_state_dict := clean_state_dict e;
     load_state_dict := load_state_dict e; pil_size := pil_size e;
     pil_convert := pil_convert e; transform := transform e;
     tensor_to := tensor_to e; forward := f; sigmoid := sigmoid e |}.

Definition with_transform {T Obj : Type} (e : env T Obj)
    (f : Obj -> result Obj) : env T Obj :=
  {| lowvram := lowvram e; device := device e; basedir := basedir e;
     is_installed := is_installed e; run_pip := run_pip e;
     SLConfig_fromfile := SLConfig_fromfile e; build_model := build_model e;
     load_state_dict_from_url := load_state_dict_from_url e;
     getitem := getitem e; clean_state_dict := clean_state_dict e;
     load_state_dict := load_state_dict e; pil_size := pil_size e;
     pil_convert := pil_convert e; transform := f;
     tensor_to := tensor_to e; forward := forward e; sigmoid := sigmoid e |}.

Definition with_installer {T Obj : Type} (e : env T Obj)
    (inst : string -> result bool) (pip : string -> string -> result unit)
  : env T Obj :=
  {| lowvram := lowvram e; device := device e; basedir := basedir e;
     is_installed := inst; run_pip := pip;
     SLConfig_fromfile := SLConfig_fromfile e; build_model := build_model e;
     load_state_dict_from_url := load_state_dict_from_url e;
     getitem := getitem e; clean_state_dict := clean_state_dict e;
     load_state_dict := load_state_dict e; pil_size := pil_size e;
     pil_convert := pil_convert e; transform := transform e;
     tensor_to := tensor_to e; forward := forward e; sigmoid := sigmoid e |}.

(** A host on which the user interrupts pip. *)
Definition interrupted_env : env binary32 string :=
  with_installer low_memory_env (fun _ => Ok false)
                 (fun _ _ => Raise KeyboardInterrupt).

(** Hosts on which the forward pass runs out of memory, and on which the
    image cannot be transformed. *)
Definition oom_env : env binary32 string :=
  with_forward low_memory_env
               (fun _ _ _ => Raise (HostError "CUDA out of memory")).

Definition bad_image_env : env binary32 string :=
  with_transform low_memory_env
                 (fun _ => Raise (HostError "cannot transform image")).

(** The state after the first model was loaded on the low-memory host. *)
Definition loaded_world : world string :=
  snd (load_dino_model low_memory_env swint (init_world string)).

(** * Properties *)

Local Open Scope list_scope.

(** ** Lists updated in place *)

Lemma upd_length {A : Type} (l : list A) (i : nat) (f : A -> A) :
  List.length (upd l i f) = List.length l.
Proof.
  revert i; induction l as [|x l IH]; intros [|i]; simpl; auto.
Qed.

Lemma upd_upd {A : Type} (l : list A) (i : nat) (f g : A -> A) :
  upd (upd l i f) i g = upd l i (fun x => g (f x)).
Proof.
  revert i; induction l as [|x l IH]; intros [|i]; simpl; auto.
  now rewrite IH.
Qed.

Lemma upd_ext {A : Type} (l : list A) (i : nat) (f g : A -> A) :
  (forall x, f x = g x) -> upd l i f = upd l i g.
Proof.
  intros E; revert i; induction l as [|x l IH]; intros [|i]; simpl; auto.
  - now rewrite E.
  - now rewrite IH.
Qed.

Lemma upd_app_l {A : Type} (l l' : list A) (i : nat) (f : A -> A) :
  (i < List.length l)%nat -> upd (l ++ l') i f = upd l i f ++ l'.
Proof.
  revert i; induction l as [|x l IH]; intros [|i] Hi; simpl in *; try lia; auto.
  rewrite IH by lia. reflexivity.
Qed.

Lemma upd_app_r {A : Type} (l l' : list A) (i : nat) (f : A -> A) :
  (List.length l <= i)%nat ->
  upd (l ++ l') i f = l ++ upd l' (i - List.length l) f.
Proof.
  revert i; induction l as [|x l IH]; intros i Hi; simpl in *.
  - now rewrite Nat.sub_0_r.
  - destruct i as [|i]; [lia|]. simpl. rewrite IH by lia. reflexivity.
Qed.

(** The index loop over a tensor's rows is a [map]. *)
Lemma fold_upd_seq {A : Type} (f : A -> A) (done todo : list A) :
  fold_left (fun bs i => upd bs i f)
            (seq (List.length done) (List.length todo)) (done ++ todo)
  = done ++ map f todo.
Proof.
  revert done; induction todo as [|x todo IH]; intros done; simpl.
  - reflexivity.
  - rewrite upd_app_r by lia. rewrite Nat.sub_diag. simpl.
    specialize (IH (done ++ [f x])).
    rewrite length_app in IH. simpl in IH. rewrite Nat.add_1_r in IH.
    rewrite <- !app_assoc in IH. simpl in IH. exact IH.
Qed.

Section RescaleLoop.
Context {T : Type} {ST : Scalar T}.

Lemma rescale_loop_map (W H : Z) (boxes : list (box T)) :
  rescale_loop W H boxes = map (rescale_row W H) boxes.
Proof.
  unfold rescale_loop. exact (fold_upd_seq (rescale_row W H) [] boxes).
Qed.

End RescaleLoop.

(** ** The model cache *)

(** Unfolds the monadic plumbing of the module's functions. *)
Ltac run :=
  cbv beta iota zeta delta
    [bind ret raise call emit print get_cache put_cache get_modules
     put_modules gc_collect torch_gc clear_dino_cache module_to module_eval
     new_module module_load_state_dict info_lookup load_dino_image
     call_model];
  cbn [dino_model_cache modules trace fst snd].

(** Case analysis on the next external call or lookup. *)
Ltac step :=
  match goal with
  | |- context [match ?c with _ => _ end] =>
      lazymatch c with
      | context [match _ with _ => _ end] => fail
      | _ => destruct c eqn:?
      end
  end; run.

Section CacheProps.

Context {T : Type} {ST : Scalar T} {Obj : Type}.

Local Abbreviation env := (env T Obj).
Local Abbreviation world := (world Obj).

Lemma nth_error_snoc {A : Type} (l : list A) (x : A) :
  nth_error (l ++ [x]) (List.length l) = Some x.
Proof.
  rewrite nth_error_app2 by lia. now rewrite Nat.sub_diag.
Qed.

Lemma dict_get_set_same {V : Type} (k : string) (v : V) d :
  dict_get k (dict_set k v d) = Some v.
Proof.
  induction d as [|[k' v'] d IH]; simpl.
  - now rewrite String.eqb_refl.
  - destruct (String.eqb k k') eqn:E; simpl.
    + now rewrite String.eqb_refl.
    + now rewrite E.
Qed.

(** A cached checkpoint is returned as it is: nothing is parsed, built or
    downloaded, and the cache is not written. *)
Lemma load_dino_model_hit (e : env) name (w : world) h :
  dict_get name (dino_model_cache w) = Some h ->
  load_dino_model e name w =
  (Ok h,
   {| dino_model_cache := dino_model_cache w;
      modules :=
        upd (if lowvram e then upd (modules w) h (set_device (device e))
             else modules w) h set_eval;
      trace :=
        EvEval h ::
        (if lowvram e then [EvModuleTo h (device e)] else []) ++
        EvPrint ("Initializing GroundingDINO " ++ name) :: trace w |}).
Proof.
  intros Hget. unfold load_dino_model. run. rewrite Hget.
  destruct (lowvram e); run; reflexivity.
Qed.

(** A checkpoint that is not cached: either an exception leaves the cache
    empty, or the new module becomes the only entry. *)
Lemma load_dino_model_miss (e : env) name (w : world) :
  dict_get name (dino_model_cache w) = None ->
  (exists x w', load_dino_model e name w = (Raise x, w') /\
                dino_model_cache w' = []) \/
  (exists w', load_dino_model e name w = (Ok (List.length (modules w)), w') /\
              dino_model_cache w' = [(name, List.length (modules w))]).
Proof.
  intros Hget. unfold load_dino_model. run. rewrite Hget. run.
  repeat step; try (left; eexists; eexists; split; [reflexivity|reflexivity]).
  all: try (right; eexists; split; [reflexivity|reflexivity]).
  all: rewrite nth_error_snoc in *; discriminate.
Qed.

(** Only [load_dino_model] and [clear_dino_cache] write the cache. *)
Lemma install_keeps_store (e : env) (w : world) :
  dino_model_cache (snd (install_goundingdino e w)) = dino_model_cache w /\
  modules (snd (install_goundingdino e w)) = modules w.
Proof.
  unfold install_goundingdino. run.
  repeat step; split; reflexivity.
Qed.

Lemma get_grounding_output_keeps_cache (e : env) model image caption thr
    (w : world) :
  dino_model_cache (snd (get_grounding_output e model image caption thr w))
  = dino_model_cache w.
Proof.
  unfold get_grounding_output. run.
  repeat step; reflexivity.
Qed.

Lemma load_dino_model_single_slot (e : env) name (w : world) :
  single_slot w -> single_slot (snd (load_dino_model e name w)).
Proof.
  unfold single_slot. intros Hw.
  destruct (dict_get name (dino_model_cache w)) as [h|] eqn:Hget.
  - rewrite (load_dino_model_hit e _ _ Hget). exact Hw.
  - destruct (load_dino_model_miss e _ _ Hget)
      as [(x & w' & E & Hc) | (w' & E & Hc)];
      rewrite E; simpl; rewrite Hc; simpl; lia.
Qed.

Lemma dino_predict_internal_single_slot (e : env) image name prompt thr
    (w : world) :
  single_slot w ->
  single_slot (snd (dino_predict_internal e image name prompt thr w)).
Proof.
  intros Hw. unfold dino_predict_internal.
  destruct (install_keeps_store e w) as [Hc _].
  unfold bind at 1.
  destruct (install_goundingdino e w) as [[b|x] w1]; simpl in Hc.
  all: assert (H1 : single_slot w1) by (unfold single_slot; now rewrite Hc).
  all: [> | exact H1].
  destruct b; simpl; [|exact H1].
  run.
  destruct (pil_convert e image "RGB") as [rgb|x]; [|exact H1].
  destruct (transform e rgb) as [t|x]; [|exact H1].
  match goal with
  | |- context [load_dino_model e name ?w0] =>
      assert (H2 : single_slot (snd (load_dino_model e name w0)))
        by (apply load_dino_model_single_slot; exact H1);
      destruct (load_dino_model e name w0) as [[h|x] w2]
  end; [|exact H2].
  simpl in H2.
  pose proof (get_grounding_output_keeps_cache e h t prompt thr w2) as Hg.
  destruct (get_grounding_output e h t prompt thr w2) as [[kept|x] w3];
    simpl in Hg |- *; unfold single_slot in *; simpl; now rewrite Hg.
Qed.

Lemma reachable_single_slot (w : world) :
  reachable (T := T) w -> single_slot w.
Proof.
  induction 1.
  - unfold single_slot; simpl; lia.
  - destruct (install_keeps_store e w) as [Hc _].
    unfold single_slot in *. now rewrite Hc.
  - unfold single_slot; simpl; lia.
  - now apply load_dino_model_single_slot.
  - unfold single_slot in *.
    now rewrite get_grounding_output_keeps_cache.
  - now apply dino_predict_internal_single_slot.
Qed.

(** What a successful call leaves behind: the checkpoint is cached under
    the returned handle, and the module is on the device (when it was just
    built, or in low-memory mode) and in evaluation mode. *)
Lemma load_dino_model_ok_shape (e : env) name (w w1 : world) h :
  load_dino_model e name w = (Ok h, w1) ->
  dict_get name (dino_model_cache w1) = Some h /\
  exists ms,
    modules w1 =
    upd (if lowvram e then upd ms h (set_device (device e)) else ms) h set_eval.
Proof.
  intros Hload.
  destruct (dict_get name (dino_model_cache w)) as [h0|] eqn:Hget.
  - rewrite (load_dino_model_hit e _ _ Hget) in Hload.
    injection Hload as <- <-. simpl. split; [exact Hget|].
    now exists (modules w).
  - revert Hload. unfold load_dino_model. run. rewrite Hget. run.
    repeat step; try discriminate; intros Hload;
      injection Hload as <- <-; simpl.
    all: split; [now rewrite String.eqb_refl|].
    all: eexists; reflexivity.
Qed.

Lemma set_eval_device_twice (d : torch_device) (m : module_state Obj) :
  set_eval (set_device d (set_eval (set_device d m))) = set_eval (set_device d m).
Proof. now destruct m. Qed.

Lemma set_eval_twice (m : module_state Obj) :
  set_eval (set_eval m) = set_eval m.
Proof. now destruct m. Qed.

(** C2. The cache holds at most one model: every reachable state has zero
    or one entry; after [load_dino_model A] and then a successful
    [load_dino_model B] with [A <> B] the cache is exactly B's entry and A's
    is gone; and a successful load of a checkpoint that was not cached
    leaves its entry as the only one, whatever the cache held before. *)
Theorem cache_holds_one_model (e1 e2 : env) (A B : string) (w w2 : world)
    (hB : handle) :
  reachable (T := T) w ->
  A <> B ->
  load_dino_model e2 B (snd (load_dino_model e1 A w)) = (Ok hB, w2) ->
  single_slot w /\
  single_slot (snd (load_dino_model e1 A w)) /\
  dino_model_cache w2 = [(B, hB)] /\
  dict_get A (dino_model_cache w2) = None /\
  (forall (e : env) name (w0 w' : world) h,
      dict_get name (dino_model_cache w0) = None ->
      load_dino_model e name w0 = (Ok h, w') ->
      dino_model_cache w' = [(name, h)]).
Proof.
  intros Hreach Hneq Hload.
  assert (Hmiss : forall (e : env) name (w0 w' : world) h,
             dict_get name (dino_model_cache w0) = None ->
             load_dino_model e name w0 = (Ok h, w') ->
             dino_model_cache w' = [(name, h)]).
  { intros e name w0 w' h Hget Hl.
    destruct (load_dino_model_miss e _ _ Hget)
      as [(x & w'' & E & Hc) | (w'' & E & Hc)];
      rewrite E in Hl; [discriminate|].
    injection Hl as <- <-. exact Hc. }
  assert (H1 : single_slot (snd (load_dino_model e1 A w))).
  { apply reachable_single_slot. now apply reach_load. }
  assert (HB : dino_model_cache w2 = [(B, hB)]).
  { set (w1 := snd (load_dino_model e1 A w)) in *.
    destruct (dict_get B (dino_model_cache w1)) as [h|] eqn:Hget.
    - rewrite (load_dino_model_hit e2 _ _ Hget) in Hload.
      injection Hload as <- <-. simpl.
      unfold single_slot in H1.
      destruct (dino_model_cache w1) as [|[k v] [|p c]]; simpl in *;
        try discriminate; try lia.
      destruct (String.eqb_spec B k); [|discriminate].
      injection Hget as ->. now subst.
    - now apply (Hmiss e2 _ w1). }
  repeat split; auto.
  - now apply reachable_single_slot.
  - rewrite HB. simpl.
    destruct (String.eqb_spec A B); [contradiction|reflexivity].
Qed.

(** C3. Loading the same checkpoint twice in a row: the second call returns
    the handle of the first, records no config parse, model construction or
    download, and leaves the cache and the module objects as the first call
    left them. *)
Theorem load_dino_model_twice (e : env) (A : string) (w w1 : world)
    (h : handle) :
  load_dino_model e A w = (Ok h, w1) ->
  exists w2,
    load_dino_model e A w1 = (Ok h, w2) /\
    dino_model_cache w2 = dino_model_cache w1 /\
    modules w2 = modules w1 /\
    trace w2 =
      EvEval h ::
      (if lowvram e then [EvModuleTo h (device e)] else []) ++
      EvPrint ("Initializing GroundingDINO " ++ A) :: trace w1.
Proof.
  intros Hload.
  destruct (load_dino_model_ok_shape _ _ _ Hload) as (Hget & ms & Hms).
  eexists. split; [apply (load_dino_model_hit e _ _ Hget)|].
  simpl. repeat split. rewrite Hms.
  destruct (lowvram e).
  - rewrite !upd_upd. apply upd_ext. intros m.
    apply set_eval_device_twice.
  - rewrite upd_upd. apply upd_ext. intros m. apply set_eval_twice.
Qed.

(** Whatever makes [load_dino_model] raise, the cache is empty afterwards. *)
Lemma load_dino_model_raise_empties_cache (e : env) name (w w' : world) x :
  load_dino_model e name w = (Raise x, w') -> dino_model_cache w' = [].
Proof.
  intros Hl.
  destruct (dict_get name (dino_model_cache w)) as [h|] eqn:Hget.
  - rewrite (load_dino_model_hit e _ _ Hget) in Hl. discriminate.
  - destruct (load_dino_model_miss e _ _ Hget)
      as [(x' & w'' & E & Hc) | (w'' & E & Hc)];
      rewrite E in Hl; [|discriminate].
    injection Hl as _ <-. exact Hc.
Qed.

(** C9. When parsing the config, downloading the checkpoint or loading its
    weights raises, [load_dino_model] raises that same exception and leaves
    the cache empty: there is no entry for the model that failed to load.
    More generally the cache is empty after any exception out of
    [load_dino_model]. *)
Theorem load_failure_leaves_cache_empty (e : env) (name : string) (w : world)
    (x : exn) :
  dict_get name (dino_model_cache w) = None ->
  load_failure e name x ->
  (exists w',
      load_dino_model e name w = (Raise x, w') /\
      dino_model_cache w' = [] /\
      dict_get name (dino_model_cache w') = None) /\
  (forall (e0 : env) name0 (w0 w0' : world) x0,
      load_dino_model e0 name0 w0 = (Raise x0, w0') ->
      dino_model_cache w0' = []).
Proof.
  intros Hget Hfail.
  split; [|intros e0 name0 w0 w0' x0;
           apply load_dino_model_raise_empties_cache].
  unfold load_dino_model. run. rewrite Hget. run.
  destruct Hfail as [info Hi Hc | info args built Hi Hc Hb Hd
                    | info args built ckpt Hi Hc Hb Hd Hk
                    | info args built ckpt sd Hi Hc Hb Hd Hk Hl];
    rewrite Hi; run; rewrite Hc; run.
  - eexists. repeat split.
  - rewrite Hb. run. rewrite Hd. run.
    eexists. repeat split.
  - rewrite Hb. run. rewrite Hd. run. rewrite Hk. run.
    eexists. repeat split.
  - rewrite Hb. run. rewrite Hd. run. rewrite Hk. run.
    rewrite nth_error_snoc. run. cbn [net]. rewrite Hl. run.
    eexists. repeat split.
Qed.

(** C4. When the installer reports that groundingdino is unavailable,
    [dino_predict_internal] returns [(None, False)] without raising, in the
    state the installer left: [load_dino_model] is not called, the cache and
    the module objects are untouched, and the trace only gained the
    installer's own events. *)
Theorem predict_without_groundingdino (e : env) image name prompt thr
    (w w0 : world) :
  install_goundingdino e w = (Ok false, w0) ->
  dino_predict_internal e image name prompt thr w = (Ok (None, false), w0) /\
  dino_model_cache w0 = dino_model_cache w /\
  modules w0 = modules w /\
  trace w0 =
    [ EvPrint ("GroundingDINO install failed. Please " ++ dino_install_issue_text);
      EvPrint "None";
      EvPrintExc;
      EvRunPip "install git+https://github.com/IDEA-Research/GroundingDINO"
               "sd-webui-segment-anything requirement: groundingdino" ]
    ++ trace w.
Proof.
  intros Hi. split.
  - unfold dino_predict_internal, bind at 1. rewrite Hi. reflexivity.
  - revert Hi. unfold install_goundingdino. run.
    repeat step; intros Hi; try discriminate;
      injection Hi as <-; simpl; auto.
Qed.

End CacheProps.

(** ** Filtering by confidence *)

Section FilterProps.

Context {T : Type} {ST : Scalar T}.

Lemma max_dim1_rows (logits : list (list T)) :
  Forall (fun row => row <> []) logits ->
  exists maxes,
    max_dim1 logits = Ok maxes /\
    Forall2 (fun row m => row_max row = Ok m) logits maxes.
Proof.
  induction 1 as [|row logits Hrow _ (maxes & Hm & Hall)]; simpl.
  - exists []. split; [reflexivity|constructor].
  - destruct row as [|x row]; [contradiction|]. simpl. rewrite Hm. simpl.
    eexists. split; [reflexivity|]. constructor; auto.
Qed.

(** Indexing any tensor with the mask keeps the rows of the kept queries,
    in order. *)
Lemma mask_index_keeps {A : Type} (f : list T * box T -> A) (thr : T)
    logits maxes :
  Forall2 (fun row m => row_max row = Ok m) logits maxes ->
  forall (boxes : list (box T)) (xs : list A),
    List.length logits = List.length boxes ->
    xs = map f (combine logits boxes) ->
    mask_index xs (map (fun m => gtb m thr) maxes)
    = Ok (map f (filter (keeps thr) (combine logits boxes))).
Proof.
  induction 1 as [|row m logits maxes Hrow _ IH];
    intros [|b boxes] xs Hlen ->; simpl in *; try discriminate.
  - reflexivity.
  - rewrite (IH boxes _ (eq_add_S _ _ Hlen) eq_refl). simpl.
    assert (Hk : keeps thr (row, b) = gtb m thr)
      by (unfold keeps; simpl; now rewrite Hrow).
    rewrite Hk. destruct (gtb m thr); reflexivity.
Qed.

Lemma map_fst_combine {A B : Type} (l : list A) (l' : list B) :
  List.length l = List.length l' -> map fst (combine l l') = l.
Proof.
  revert l'; induction l as [|x l IH]; intros [|y l'] H; simpl in *;
    try discriminate; auto.
  now rewrite IH by congruence.
Qed.

Lemma map_snd_combine {A B : Type} (l : list A) (l' : list B) :
  List.length l = List.length l' -> map snd (combine l l') = l'.
Proof.
  revert l'; induction l as [|x l IH]; intros [|y l'] H; simpl in *;
    try discriminate; auto.
  now rewrite IH by congruence.
Qed.

(** On a well-shaped model output the filter does not raise, and both
    tensors are cut by the same mask. *)
Lemma filter_output_spec (logits : list (list T)) (boxes : list (box T))
    (thr : T) :
  List.length logits = List.length boxes ->
  Forall (fun row => row <> []) logits ->
  filter_output logits boxes thr =
  Ok (map fst (filter (keeps thr) (combine logits boxes)),
      map snd (filter (keeps thr) (combine logits boxes))).
Proof.
  intros Hlen Hrows. unfold filter_output.
  destruct (max_dim1_rows Hrows) as (maxes & -> & Hall). simpl.
  rewrite (mask_index_keeps fst thr Hall boxes Hlen)
    by (now rewrite map_fst_combine).
  simpl.
  rewrite (mask_index_keeps snd thr Hall boxes Hlen)
    by (now rewrite map_snd_combine).
  reflexivity.
Qed.


Lemma filter_none {A : Type} (p : A -> bool) (l : list A) :
  Forall (fun x => p x = false) l -> filter p l = [].
Proof.
  induction 1 as [|x l Hx _ IH]; simpl; [reflexivity|]. now rewrite Hx.
Qed.

End FilterProps.

(** The order of binary32 is transitive, NaN included (it compares false). *)
Lemma SFltb_trans (x y z : binary32) :
  SFltb x y = true -> SFltb y z = true -> SFltb x z = true.
Proof.
  unfold SFltb, SFcompare.
  destruct x as [sx|sx| |sx mx ex], y as [sy|sy| |sy my ey],
    z as [sz|sz| |sz mz ez];
    try destruct sx; try destruct sy; try destruct sz;
    try discriminate; try reflexivity.
  all: change (Pos.compare_cont Eq) with Pos.compare.
  all: destruct (Z.compare_spec ex ey); try discriminate;
       destruct (Z.compare_spec ey ez); try discriminate;
       destruct (Z.compare_spec ex ez); try reflexivity; try lia.
  all: subst.
  all: destruct (Pos.compare_spec mx my); try discriminate;
       destruct (Pos.compare_spec my mz); try discriminate;
       destruct (Pos.compare_spec mx mz); try reflexivity;
       try discriminate; try lia.
Qed.


(** ** The inference pipeline *)

Section PipelineProps.

Context {T : Type} {ST : Scalar T} {Obj : Type}.

Local Abbreviation env := (env T Obj).
Local Abbreviation world := (world Obj).

(** The filtered boxes of a model output: the queries kept by the
    threshold, on the confidences [sigmoid] gives. *)
Lemma get_grounding_output_ok (e : env) model image caption thr (w : world)
    m outs logits boxes rl rb :
  nth_error (modules w) model = Some m ->
  forward e m (tensor_to e image (device e)) (normalize_caption caption)
  = Ok outs ->
  pred_logits outs = logits :: rl ->
  pred_boxes outs = boxes :: rb ->
  List.length logits = List.length boxes ->
  Forall (fun row => row <> []) logits ->
  exists w',
    get_grounding_output e model image caption thr w =
    (Ok (map snd (filter (keeps thr)
                    (combine (map (map (sigmoid e)) logits) boxes))), w').
Proof.
  intros Hm Hf Hl Hb Hlen Hrows.
  assert (Hrows' : Forall (fun row => row <> [])
                          (map (map (sigmoid e)) logits)).
  { apply Forall_map. eapply Forall_impl; [|exact Hrows].
    intros [|x row] Hne; [contradiction|discriminate]. }
  assert (Hlen' : List.length (map (map (sigmoid e)) logits)
                  = List.length boxes) by (now rewrite length_map).
  unfold get_grounding_output. run. rewrite Hm. run. rewrite Hf, Hl, Hb.
  cbn [map index0].
  rewrite (@filter_output_spec _ _ _ boxes thr Hlen' Hrows').
  destruct (lowvram e); run; eexists; reflexivity.
Qed.

(** Whatever [dino_predict_internal] returns with boxes, it returns with
    [True], and the boxes are the rescaled rows of what
    [get_grounding_output] returned. *)
Lemma dino_predict_internal_inv (e : env) image name prompt thr (w w' : world)
    bs ok :
  dino_predict_internal e image name prompt thr w = (Ok (Some bs, ok), w') ->
  ok = true /\
  exists model t w2 kept w3,
    get_grounding_output e model t prompt thr w2 = (Ok kept, w3) /\
    bs = map (rescale_row (fst (pil_size e image)) (snd (pil_size e image)))
             kept.
Proof.
  unfold dino_predict_internal. unfold bind at 1.
  destruct (install_goundingdino e w) as [[[|]|x] w1]; simpl;
    try discriminate.
  run.
  destruct (pil_convert e image "RGB") as [rgb|x]; [|discriminate].
  destruct (transform e rgb) as [t|x]; [|discriminate].
  match goal with
  | |- context [load_dino_model e name ?w0] =>
      destruct (load_dino_model e name w0) as [[h|x] w2]
  end; [|discriminate].
  destruct (get_grounding_output e h t prompt thr w2) as [[kept|x] w3] eqn:Hg;
    [|discriminate].
  intros H. injection H as <- <- _. split; [reflexivity|].
  exists h, t, w2, kept, w3. split; [exact Hg|]. apply rescale_loop_map.
Qed.

(** When every step succeeds the call returns the rescaled boxes and
    [True]. *)
Lemma dino_predict_internal_ok (e : env) image name prompt thr
    (w w1 w2 w3 : world) rgb t h kept :
  install_goundingdino e w = (Ok true, w1) ->
  pil_convert e image "RGB" = Ok rgb ->
  transform e rgb = Ok t ->
  load_dino_model e name (snd (print "Running GroundingDINO Inference" w1))
  = (Ok h, w2) ->
  get_grounding_output e h t prompt thr w2 = (Ok kept, w3) ->
  exists w',
    dino_predict_internal e image name prompt thr w =
    (Ok (Some (map (rescale_row (fst (pil_size e image))
                                (snd (pil_size e image))) kept), true), w').
Proof.
  intros Hi Hc Ht Hl Hg.
  unfold dino_predict_internal. unfold bind at 1. rewrite Hi. simpl.
  revert Hl. run. rewrite Hc, Ht. intros ->. rewrite Hg.
  rewrite rescale_loop_map. eexists. reflexivity.
Qed.

(** C8. When the installer succeeds, the image is preprocessed, the model
    loads and the forward pass returns a well-shaped output,
    [dino_predict_internal] returns the rescaled kept boxes together with
    [True]; when no query is above the threshold the boxes are the empty
    sequence, still with [True]. *)
Theorem predict_ok_without_detections (e : env) image name prompt thr
    (w w1 w2 : world) rgb t h m outs logits boxes rl rb :
  install_goundingdino e w = (Ok true, w1) ->
  pil_convert e image "RGB" = Ok rgb ->
  transform e rgb = Ok t ->
  load_dino_model e name (snd (print "Running GroundingDINO Inference" w1))
  = (Ok h, w2) ->
  nth_error (modules w2) h = Some m ->
  forward e m (tensor_to e t (device e)) (normalize_caption prompt) = Ok outs ->
  pred_logits outs = logits :: rl ->
  pred_boxes outs = boxes :: rb ->
  List.length logits = List.length boxes ->
  Forall (fun row => row <> []) logits ->
  exists bs w',
    dino_predict_internal e image name prompt thr w = (Ok (Some bs, true), w') /\
    bs = map (rescale_row (fst (pil_size e image)) (snd (pil_size e image)))
             (map snd (filter (keeps thr)
                         (combine (map (map (sigmoid e)) logits) boxes))) /\
    (Forall (fun q => keeps thr q = false)
            (combine (map (map (sigmoid e)) logits) boxes) ->
     bs = []).
Proof.
  intros Hi Hc Ht Hl Hm Hf Hpl Hpb Hlen Hrows.
  destruct (get_grounding_output_ok e h t prompt thr w2 Hm Hf Hpl Hpb Hlen Hrows)
    as (w3 & Hg).
  edestruct dino_predict_internal_ok as (w' & Hp);
    [exact Hi|exact Hc|exact Ht|exact Hl|exact Hg|].
  eexists. exists w'. split; [exact Hp|]. split; [reflexivity|].
  intros Hnone. now rewrite (filter_none _ Hnone).
Qed.

End PipelineProps.

(** ** The box transform in exact arithmetic *)

Lemma inject_Z_pos (z : Z) : (0 < z)%Z -> 0 < inject_Z z.
Proof. intros Hz. rewrite Zlt_Qlt in Hz. exact Hz. Qed.


(** The loop body computes the corner box the specification writes. *)
Lemma rescale_row_formula (W H : Z) (b : box Q) :
  box_eq (rescale_row W H b) (corner_box_formula W H b).
Proof.
  destruct b as [[[cx cy] w] h]. unfold box_eq. simpl.
  repeat split; field.
Qed.

(** The bottom-right corner is the top-left corner plus the pixel size. *)
Lemma rescale_row_ordered (W H : Z) (b : box Q) :
  (0 < W)%Z -> (0 < H)%Z ->
  positive_size b -> corners_ordered (rescale_row W H b).
Proof.
  destruct b as [[[cx cy] w] h]. intros HW HH [Hw Hh].
  apply inject_Z_pos in HW, HH.
  pose proof (Qmult_lt_0_compat _ _ Hw HW) as Hx.
  pose proof (Qmult_lt_0_compat _ _ Hh HH) as Hy.
  unfold corners_ordered. simpl. split; lra.
Qed.

Lemma Forall2_map_self {A B : Type} (P : A -> B -> Prop) (f : A -> B)
    (l : list A) :
  (forall x, P x (f x)) -> Forall2 P l (map f l).
Proof.
  intros HP. induction l as [|x l IH]; simpl; constructor; auto.
Qed.

Section ExactProps.

Context {Obj : Type}.

(** C6. In exact arithmetic every box [dino_predict_internal] returns is
    the corner box [(cx W - w W / 2, cy H - h H / 2, cx W + w W / 2,
    cy H + h H / 2)] of the normalized box kept by the filter.  In whatever
    arithmetic the tensors use, binary32 included, the top-left corner is
    computed by that formula and the bottom-right corner as size plus
    top-left, each operation rounded.  On the 640x480 scenario with one
    kept box (0.5, 0.5, 0.2, 0.4), computed in binary32 as torch does, the
    call returns the single box (256, 144, 384, 336). *)
Theorem rescale_to_pixel_corners :
  (forall (e : env Q Obj) image name prompt thr (w w' : world Obj) bs ok,
      dino_predict_internal e image name prompt thr w
      = (Ok (Some bs, ok), w') ->
      exists model t w2 kept w3,
        get_grounding_output e model t prompt thr w2 = (Ok kept, w3) /\
        Forall2 (fun k o =>
                   box_eq o (corner_box_formula (fst (pil_size e image))
                                                (snd (pil_size e image)) k))
                kept bs) /\
  (forall (T : Type) (ST : Scalar T) (e : env T Obj) image name prompt thr
          (w w' : world Obj) bs ok,
      dino_predict_internal e image name prompt thr w
      = (Ok (Some bs, ok), w') ->
      exists model t w2 kept w3,
        get_grounding_output e model t prompt thr w2 = (Ok kept, w3) /\
        Forall2 (fun k o =>
                   let '(cx, cy, bw, bh) := k in
                   let W := of_Z (fst (pil_size e image)) in
                   let H := of_Z (snd (pil_size e image)) in
                   let x0 := sub (mul cx W) (div (mul bw W) (of_Z 2)) in
                   let y0 := sub (mul cy H) (div (mul bh H) (of_Z 2)) in
                   o = (x0, y0, add (mul bw W) x0, add (mul bh H) y0))
                kept bs) /\
  fst (dino_predict_internal (cat_env_b32 (of_Z 0)) "photo" swint "a cat."
                             (b32_of_ratio 35 100) (init_world string))
  = Ok (Some [(of_Z 256, of_Z 144, of_Z 384, of_Z 336)], true).
Proof.
  split; [|split; [|vm_compute; reflexivity]].
  - intros e image name prompt thr w w' bs ok Hp.
    destruct (dino_predict_internal_inv _ _ _ _ _ _ Hp)
      as (_ & model & t & w2 & kept & w3 & Hg & ->).
    exists model, t, w2, kept, w3. split; [exact Hg|].
    apply Forall2_map_self. intros k. apply rescale_row_formula.
  - intros T ST e image name prompt thr w w' bs ok Hp.
    destruct (dino_predict_internal_inv _ _ _ _ _ _ Hp)
      as (_ & model & t & w2 & kept & w3 & Hg & ->).
    exists model, t, w2, kept, w3. split; [exact Hg|].
    apply Forall2_map_self. intros [[[cx cy] bw] bh]. reflexivity.
Qed.

(** C10, in exact arithmetic. Every box [dino_predict_internal] returns is
    the image of a kept normalized box; when that box has positive width
    and height and the image has positive width and height, the returned
    corners satisfy [x0 < x1] and [y0 < y1]. *)
Theorem corners_ordered_in_exact_arithmetic (e : env Q Obj) image name prompt
    thr (w w' : world Obj) bs ok :
  dino_predict_internal e image name prompt thr w = (Ok (Some bs, ok), w') ->
  (0 < fst (pil_size e image))%Z ->
  (0 < snd (pil_size e image))%Z ->
  exists model t w2 kept w3,
    get_grounding_output e model t prompt thr w2 = (Ok kept, w3) /\
    Forall2 (fun k o =>
               o = rescale_row (fst (pil_size e image))
                               (snd (pil_size e image)) k /\
               (positive_size k -> corners_ordered o))
            kept bs.
Proof.
  intros Hp HW HH.
  destruct (dino_predict_internal_inv _ _ _ _ _ _ Hp)
    as (_ & model & t & w2 & kept & w3 & Hg & ->).
  exists model, t, w2, kept, w3. split; [exact Hg|].
  apply Forall2_map_self. intros k.
  split; [reflexivity|]. now apply rescale_row_ordered.
Qed.

End ExactProps.


(** ** Drawing boxes *)

Section RendererProps.

Context {Img : Type}.

(** C1, as the code has it. With an empty box list [show_boxes] returns a
    new object that holds what the input held, and changes no existing
    object; with [None] it returns the input object itself, untouched. *)
Theorem show_boxes_without_boxes (cv : cv2_api Img) (image_np : handle)
    (col : color) (thickness : Z) (show_index : bool) (heap : list Img) :
  (image_np < List.length heap)%nat ->
  (exists image heap',
      show_boxes cv image_np (Some []) col thickness show_index heap
      = (Ok image, heap') /\
      is_copy heap heap' image_np image /\
      (forall r, (r < List.length heap)%nat ->
                 nth_error heap' r = nth_error heap r)) /\
  show_boxes cv image_np None col thickness show_index heap
  = (Ok image_np, heap).
Proof.
  intros Hin. split; [|reflexivity].
  unfold show_boxes, deepcopy.
  destruct (nth_error heap image_np) as [v|] eqn:Hv.
  - exists (List.length heap), (heap ++ [v]). split; [reflexivity|].
    split; [unfold is_copy; repeat split|].
    + lia.
    + rewrite Hv. apply nth_error_snoc.
    + rewrite Hv. discriminate.
    + intros r Hr. now apply nth_error_app1.
  - apply nth_error_None in Hv. lia.
Qed.

End RendererProps.

(** C1, counterexample to the claim as stated: with [boxes = None] the
    object returned is the input itself, not a copy. *)
Lemma show_boxes_none_is_not_a_copy :
  ~ (exists image heap',
        show_boxes canvas_cv2 0%nat None default_color default_thickness
                   default_show_index [[]]
        = (Ok image, heap') /\
        is_copy [[]] heap' 0%nat image).
Proof.
  intros (image & heap' & Hs & Hneq & _).
  simpl in Hs. injection Hs as <- _. now apply Hneq.
Qed.

Lemma show_boxes_without_boxes_witness :
  (exists image heap',
      show_boxes canvas_cv2 0%nat (Some []) default_color default_thickness
                 default_show_index [[]]
      = (Ok image, heap') /\
      is_copy [[]] heap' 0%nat image /\
      (forall r, (r < 1)%nat -> nth_error heap' r = nth_error [[]] r)) /\
  show_boxes canvas_cv2 0%nat None default_color default_thickness
             default_show_index [[]]
  = (Ok 0%nat, [[]]).
Proof.
  apply (@show_boxes_without_boxes canvas canvas_cv2 0%nat default_color
           default_thickness default_show_index [[]]).
  simpl. lia.
Defined.

(** ** Scenarios *)

(** C10, counterexample to the claim as stated, in the arithmetic the code
    runs: a box of width and height 2^-30 at the centre of a 640x480 image
    has a positive size, and the returned corners coincide at (320, 240). *)
Lemma thin_box_corners_coincide :
  b32_positive_size thin_box = true /\
  fst (dino_predict_internal thin_env "photo" swint "a cat."
                             (b32_of_ratio 35 100) (init_world string))
  = Ok (Some [(of_Z 320, of_Z 240, of_Z 320, of_Z 240)], true) /\
  b32_corners_ordered (of_Z 320, of_Z 240, of_Z 320, of_Z 240) = false.
Proof.
  repeat split; vm_compute; reflexivity.
Qed.

(** C6, counterexample to the claim as stated, in the arithmetic the code
    runs: for the box of size 3 * 2^-24 centred on the far corner of a 1x1
    image the call returns the bottom-right corner (1, 1), computed as size
    plus top-left, while the formula [cx W + w W / 2] gives 1 + 2^-23 in
    both coordinates. *)
Lemma rescale_differs_from_formula_in_binary32 :
  fst (dino_predict_internal skew_env "photo" swint "a cat."
                             (b32_of_ratio 35 100) (init_world string))
  = Ok (Some [(b32_of_ratio 8388607 8388608, b32_of_ratio 8388607 8388608,
               of_Z 1, of_Z 1)], true) /\
  corner_box_formula 1 1 skew_box
  = (b32_of_ratio 8388607 8388608, b32_of_ratio 8388607 8388608,
     b32_of_ratio 8388609 8388608, b32_of_ratio 8388609 8388608) /\
  SFltb (of_Z 1) (b32_of_ratio 8388609 8388608) = true.
Proof.
  repeat split; vm_compute; reflexivity.
Qed.


(** The second scenario of the specification: a confidence of about 0.2,
    below the threshold, gives no box and [True]. *)
Example predict_below_threshold :
  fst (dino_predict_internal (cat_env_b32 (b32_of_ratio (-12) 10)) "photo"
                             swint "a cat." (b32_of_ratio 35 100)
                             (init_world string))
  = Ok (Some [], true).
Proof. vm_compute; reflexivity. Qed.

(** The comparison with the threshold is strict. *)
Example threshold_is_strict :
  keeps (b32_of_ratio 1 2) ([b32_of_ratio 1 2; of_Z 0], cat_box_b32) = false.
Proof. vm_compute; reflexivity. Qed.

(** The cat box survives the round trip in binary32 as well. *)
Example round_trip_b32 :
  corner_to_normalized_center 640 480 (rescale_row 640 480 cat_box_b32)
  = cat_box_b32.
Proof. vm_compute; reflexivity. Qed.

Lemma cache_holds_one_model_witness :
  dino_model_cache
    (snd (load_dino_model low_memory_env swinb
            (snd (load_dino_model low_memory_env swint (init_world string)))))
  = [(swinb, 1%nat)].
Proof.
  refine (proj1 (proj2 (proj2
    (@cache_holds_one_model binary32 _ string low_memory_env low_memory_env
       swint swinb (init_world string) _ 1%nat _ _ _)))).
  - apply reach_init.
  - discriminate.
  - vm_compute; reflexivity.
Defined.

Lemma load_dino_model_twice_witness :
  exists w2,
    load_dino_model low_memory_env swint
      (snd (load_dino_model low_memory_env swint (init_world string)))
    = (Ok 0%nat, w2) /\
    dino_model_cache w2 = [(swint, 0%nat)].
Proof.
  destruct (@load_dino_model_twice binary32 string low_memory_env swint
              (init_world string)
              (snd (load_dino_model low_memory_env swint (init_world string)))
              0%nat)
    as (w2 & Hl & Hc & _).
  - vm_compute; reflexivity.
  - exists w2. split; [exact Hl|]. rewrite Hc. vm_compute; reflexivity.
Defined.

Lemma load_failure_leaves_cache_empty_witness :
  exists w',
    load_dino_model offline_env swint (init_world string)
    = (Raise (HostError "download failed"), w') /\
    dino_model_cache w' = [] /\
    dict_get swint (dino_model_cache w') = None.
Proof.
  apply (@proj1 _ (forall (e0 : env binary32 string) name0 w0 w0' x0,
                      load_dino_model e0 name0 w0 = (Raise x0, w0') ->
                      dino_model_cache w0' = [])).
  apply (@load_failure_leaves_cache_empty binary32 string offline_env swint
           (init_world string)).
  - reflexivity.
  - eapply download_fails; vm_compute; reflexivity.
Defined.

(** An unreadable config fails the same way, before anything is built. *)
Example bad_config_leaves_cache_empty :
  load_dino_model bad_config_env swint (init_world string)
  = (Raise (HostError "config parse failed"),
     {| dino_model_cache := [];
        modules := [];
        trace :=
          [ EvFromfile "/webui/extensions/sd-webui-segment-anything/models/grounding-dino/GroundingDINO_SwinT_OGC.py";
            EvTorchGc; EvGcCollect;
            EvPrint "Initializing GroundingDINO GroundingDINO_SwinT_OGC (694MB)" ] |}).
Proof. vm_compute; reflexivity. Qed.

(** An unknown model name raises [KeyError] after the cache was cleared. *)
Example unknown_model_clears_cache :
  let w1 := snd (load_dino_model low_memory_env swint (init_world string)) in
  dino_model_cache w1 = [(swint, 0%nat)] /\
  fst (load_dino_model low_memory_env "no such model" w1)
  = Raise (KeyError "no such model") /\
  dino_model_cache (snd (load_dino_model low_memory_env "no such model" w1))
  = [].
Proof. repeat split; vm_compute; reflexivity. Qed.

(** Caption normalisation and path building on sample inputs. *)
Example normalize_caption_samples :
  normalize_caption "  A Cat " = "a cat." /\
  normalize_caption "a cat." = "a cat." /\
  normalize_caption "" = ".".
Proof. repeat split; vm_compute; reflexivity. Qed.

Example dino_model_dir_sample :
  dino_model_dir low_memory_env
  = "/webui/extensions/sd-webui-segment-anything/models/grounding-dino".
Proof. vm_compute; reflexivity. Qed.

(** Drawing two indexed boxes works on the copy and leaves the input as it
    was. *)
Example show_boxes_draws_on_copy :
  show_boxes canvas_cv2 0%nat (Some [(1, 2, 3, 4); (5, 6, 7, 8)]%Z)
             default_color default_thickness true [[]]
  = (Ok 1%nat,
     [ [];
       [ DrawRect (1, 2)%Z (3, 4)%Z default_color 2;
         DrawText "0" (1, 24)%Z default_color 2;
         DrawRect (5, 6)%Z (7, 8)%Z default_color 2;
         DrawText "1" (5, 28)%Z default_color 2 ] ]).
Proof. vm_compute; reflexivity. Qed.

Lemma predict_without_groundingdino_witness :
  fst (dino_predict_internal no_dino_env "photo" swint "a cat."
                             (b32_of_ratio 35 100) (init_world string))
  = Ok (None, false).
Proof.
  refine (f_equal fst (proj1
    (@predict_without_groundingdino binary32 _ string no_dino_env "photo"
       swint "a cat." (b32_of_ratio 35 100) (init_world string)
       (snd (install_goundingdino no_dino_env (init_world string))) _))).
  vm_compute; reflexivity.
Defined.


Lemma rescale_to_pixel_corners_witness :
  exists bs,
    fst (dino_predict_internal (cat_env_Q 0) "photo" swint "a cat." (35 # 100)
                               (init_world string))
    = Ok (Some bs, true) /\
    exists model t w2 kept w3,
      get_grounding_output (cat_env_Q 0) model t "a cat." (35 # 100) w2
      = (Ok kept, w3) /\
      Forall2 (fun k o => box_eq o (corner_box_formula 640 480 k)) kept bs.
Proof.
  eexists. split; [vm_compute; reflexivity|].
  eapply (proj1 (@rescale_to_pixel_corners string) (cat_env_Q 0) "photo" swint
            "a cat." (35 # 100) (init_world string)).
  vm_compute; reflexivity.
Defined.

Lemma corners_ordered_in_exact_arithmetic_witness :
  exists bs,
    fst (dino_predict_internal (cat_env_Q 0) "photo" swint "a cat." (35 # 100)
                               (init_world string))
    = Ok (Some bs, true) /\
    exists model t w2 kept w3,
      get_grounding_output (cat_env_Q 0) model t "a cat." (35 # 100) w2
      = (Ok kept, w3) /\
      Forall2 (fun k o =>
                 o = rescale_row 640 480 k /\
                 (positive_size k -> corners_ordered o))
              kept bs.
Proof.
  eexists. split; [vm_compute; reflexivity|].
  eapply (@corners_ordered_in_exact_arithmetic string (cat_env_Q 0) "photo"
            swint "a cat." (35 # 100) (init_world string)).
  - vm_compute; reflexivity.
  - simpl. lia.
  - simpl. lia.
Defined.


Lemma predict_ok_without_detections_witness :
  exists bs w',
    dino_predict_internal (cat_env_b32 (b32_of_ratio (-12) 10)) "photo" swint
                          "a cat." (b32_of_ratio 35 100) (init_world string)
    = (Ok (Some bs, true), w') /\
    bs = [].
Proof.
  destruct (@predict_ok_without_detections binary32 _ string
              (cat_env_b32 (b32_of_ratio (-12) 10)) "photo" swint "a cat."
              (b32_of_ratio 35 100) (init_world string)
              (snd (install_goundingdino
                      (cat_env_b32 (b32_of_ratio (-12) 10))
                      (init_world string)))
              (snd (load_dino_model
                      (cat_env_b32 (b32_of_ratio (-12) 10)) swint
                      (snd (print "Running GroundingDINO Inference"
                              (init_world string)))))
              "photo as RGB" "tensor of photo as RGB" 0%nat
              {| net := "model of config /webui/extensions/sd-webui-segment-anything/models/grounding-dino/GroundingDINO_SwinT_OGC.py with checkpoint https://huggingface.co/ShilongLiu/GroundingDINO/resolve/main/groundingdino_swint_ogc.pth[model]";
                 placed_on := Accelerator;
                 training := false |}
              (one_query (b32_of_ratio (-12) 10) cat_box_b32)
              [[b32_of_ratio (-12) 10; of_Z (-8)]] [cat_box_b32] [] [])
    as (bs & w' & Hp & _ & Hnone).
  - vm_compute; reflexivity.
  - reflexivity.
  - reflexivity.
  - vm_compute; reflexivity.
  - vm_compute; reflexivity.
  - reflexivity.
  - reflexivity.
  - reflexivity.
  - reflexivity.
  - repeat constructor; discriminate.
  - exists bs, w'. split; [exact Hp|]. apply Hnone.
    repeat constructor.
Defined.

(** * Further properties of the module *)

(** ** Cells of a store updated in place *)

Lemma nth_error_upd_same {A : Type} (l : list A) (i : nat) (f : A -> A) :
  nth_error (upd l i f) i = option_map f (nth_error l i).
Proof.
  revert i; induction l as [|x l IH]; intros [|i]; simpl; auto.
Qed.

Lemma nth_error_upd_other {A : Type} (l : list A) (i j : nat) (f : A -> A) :
  i <> j -> nth_error (upd l i f) j = nth_error l j.
Proof.
  revert i j; induction l as [|x l IH]; intros [|i] [|j] H; simpl; auto;
    congruence.
Qed.

Section InstallProps.

Context {T : Type} {ST : Scalar T} {Obj : Type}.

Local Abbreviation env := (env T Obj).
Local Abbreviation world := (world Obj).

(** X1. The outcomes of [install_goundingdino].  It answers [True] exactly
    when groundingdino is already installed or pip installs it, and [False]
    exactly when pip raises an [Exception].  It raises exactly what
    [launch.is_installed] raises, or what pip raises outside [Exception]
    ([KeyboardInterrupt], [SystemExit]), which [except Exception] does not
    catch.  When groundingdino is already installed nothing at all happens
    (pip is not run, nothing is printed); in every case the cache and the
    modules are left alone. *)
Theorem install_goundingdino_outcome (e : env) (w : world) :
  (dino_model_cache (snd (install_goundingdino e w)) = dino_model_cache w /\
   modules (snd (install_goundingdino e w)) = modules w) /\
  (fst (install_goundingdino e w) = Ok true <->
   is_installed e "groundingdino" = Ok true \/
   (is_installed e "groundingdino" = Ok false /\
    run_pip e "install git+https://github.com/IDEA-Research/GroundingDINO"
              "sd-webui-segment-anything requirement: groundingdino"
    = Ok tt)) /\
  (fst (install_goundingdino e w) = Ok false <->
   is_installed e "groundingdino" = Ok false /\
   exists x,
     run_pip e "install git+https://github.com/IDEA-Research/GroundingDINO"
               "sd-webui-segment-anything requirement: groundingdino"
     = Raise x /\
     is_Exception x = true) /\
  (forall x,
      fst (install_goundingdino e w) = Raise x <->
      is_installed e "groundingdino" = Raise x \/
      (is_installed e "groundingdino" = Ok false /\
       run_pip e "install git+https://github.com/IDEA-Research/GroundingDINO"
                 "sd-webui-segment-anything requirement: groundingdino"
       = Raise x /\
       is_Exception x = false)) /\
  (is_installed e "groundingdino" = Ok true ->
   install_goundingdino e w = (Ok true, w)).
Proof.
  split; [apply install_keeps_store|].
  unfold install_goundingdino. run.
  destruct (is_installed e "groundingdino") as [[|]|x0]; run;
    [| destruct (run_pip e _ _) as [[]|x1]; run;
       [| destruct (is_Exception x1) eqn:Hx; run] |].
  all: repeat split; intros;
    repeat match goal with
           | H : _ \/ _ |- _ => destruct H
           | H : _ /\ _ |- _ => destruct H
           | H : exists _, _ |- _ => destruct H
           end;
    try congruence; eauto 6.
  all: match goal with
       | H : Raise _ = Raise _ |- _ => injection H as <-; auto
       end.
Qed.

End InstallProps.

(** ** More on the model cache *)

Section CacheMore.

Context {T : Type} {ST : Scalar T} {Obj : Type}.

Local Abbreviation env := (env T Obj).
Local Abbreviation world := (world Obj).

Lemma upd_snoc_last {A : Type} (l : list A) (x : A) (f : A -> A) :
  upd (l ++ [x]) (List.length l) f = l ++ [f x].
Proof.
  rewrite upd_app_r by lia. now rewrite Nat.sub_diag.
Qed.

(** A successful load of a checkpoint that is not cached, step by step. *)
Lemma load_dino_model_miss_ok (e : env) (name : string) (w w' : world)
    (h : handle) :
  dict_get name (dino_model_cache w) = None ->
  load_dino_model e name w = (Ok h, w') ->
  exists info args built ckpt sd n,
    dict_get name (dino_model_info e) = Some info /\
    SLConfig_fromfile e (config info) = Ok args /\
    build_model e args = Ok built /\
    load_state_dict_from_url e (url info) (dino_model_dir e) = Ok ckpt /\
    getitem e ckpt "model" = Ok sd /\
    load_state_dict e built (clean_state_dict e sd) = Ok n /\
    h = List.length (modules w) /\
    w' = {| dino_model_cache := [(name, h)];
            modules :=
              modules w ++
              [{| net := n; placed_on := device e; training := false |}];
            trace :=
              [ EvEval h; EvModuleTo h (device e); EvLoadStateDict h;
                EvDownload (url info) (dino_model_dir e); EvBuildModel;
                EvFromfile (config info); EvTorchGc; EvGcCollect;
                EvPrint ("Initializing GroundingDINO " ++ name)%string ]
              ++ trace w |}.
Proof.
  intros Hget. unfold load_dino_model. run. rewrite Hget. run.
  destruct (dict_get name (dino_model_info e)) as [info|] eqn:Hi; run;
    [|discriminate].
  destruct (SLConfig_fromfile e (config info)) as [args|] eqn:Hc; run;
    [|discriminate].
  destruct (build_model e args) as [built|] eqn:Hb; run; [|discriminate].
  destruct (load_state_dict_from_url e (url info) (dino_model_dir e))
    as [ckpt|] eqn:Hd; run; [|discriminate].
  destruct (getitem e ckpt "model") as [sd|] eqn:Hk; run; [|discriminate].
  rewrite nth_error_snoc. run. cbn [net].
  destruct (load_state_dict e built (clean_state_dict e sd)) as [n|] eqn:Hl;
    run; [|discriminate].
  intros H. injection H as <- <-.
  exists info, args, built, ckpt, sd, n. repeat split; auto.
  rewrite !upd_snoc_last. reflexivity.
Qed.

(** X2. What a successful load of a checkpoint that is not cached amounts
    to: the name is in the registry; its config was parsed, the model
    built, the checkpoint downloaded, its ['model'] entry read and its
    weights loaded, all without raising; the returned handle is a new
    object, appended to the store on the device and in evaluation mode; the
    cache holds that one entry; and the trace shows the order: cache
    cleared and garbage collected first, then parse, build, download, load,
    move to the device, and [eval] last. *)
Theorem load_dino_model_builds (e : env) (name : string) (w w' : world)
    (h : handle) :
  dict_get name (dino_model_cache w) = None ->
  load_dino_model e name w = (Ok h, w') ->
  exists info args built ckpt sd n,
    dict_get name (dino_model_info e) = Some info /\
    SLConfig_fromfile e (config info) = Ok args /\
    build_model e args = Ok built /\
    load_state_dict_from_url e (url info) (dino_model_dir e) = Ok ckpt /\
    getitem e ckpt "model" = Ok sd /\
    load_state_dict e built (clean_state_dict e sd) = Ok n /\
    h = List.length (modules w) /\
    w' = {| dino_model_cache := [(name, h)];
            modules :=
              modules w ++
              [{| net := n; placed_on := device e; training := false |}];
            trace :=
              [ EvEval h; EvModuleTo h (device e); EvLoadStateDict h;
                EvDownload (url info) (dino_model_dir e); EvBuildModel;
                EvFromfile (config info); EvTorchGc; EvGcCollect;
                EvPrint ("Initializing GroundingDINO " ++ name)%string ]
              ++ trace w |}.
Proof.
  intros Hget Hl.
  destruct (load_dino_model_miss_ok e name w Hget Hl)
    as (info & args & built & ckpt & sd & n & Hi & Hc & Hb & Hd & Hk & Hs
        & Hh & Hw).
  exists info, args, built, ckpt, sd, n.
  repeat split; assumption.
Qed.

(** X3. An unknown model name: [load_dino_model] raises [KeyError] on the
    registry lookup, but only after it has cleared the cache, so whatever
    model was cached is evicted; no module object is created or changed. *)
Theorem load_unknown_model_evicts (e : env) (name : string) (w : world) :
  dict_get name (dino_model_cache w) = None ->
  dict_get name (dino_model_info e) = None ->
  load_dino_model e name w =
  (Raise (KeyError name),
   {| dino_model_cache := [];
      modules := modules w;
      trace := [ EvTorchGc; EvGcCollect;
                 EvPrint ("Initializing GroundingDINO " ++ name)%string ]
               ++ trace w |}).
Proof.
  intros Hget Hinfo. unfold load_dino_model. run. rewrite Hget. run.
  rewrite Hinfo. reflexivity.
Qed.

(** X4. Clearing the cache forces a rebuild: the next successful load
    returns a new module object, whether or not the name was cached
    before, and that call itself parses the config, builds the model and
    downloads the checkpoint: the events the clear and the load add to the
    trace are exactly the ones listed. *)
Theorem load_after_clear_rebuilds (e : env) (name : string) (w w' : world)
    (h : handle) :
  load_dino_model e name (snd (clear_dino_cache w)) = (Ok h, w') ->
  h = List.length (modules w) /\
  nth_error (modules w) h = None /\
  dino_model_cache w' = [(name, h)] /\
  exists info,
    dict_get name (dino_model_info e) = Some info /\
    trace w' =
      [ EvEval h; EvModuleTo h (device e); EvLoadStateDict h;
        EvDownload (url info) (dino_model_dir e); EvBuildModel;
        EvFromfile (config info); EvTorchGc; EvGcCollect;
        EvPrint ("Initializing GroundingDINO " ++ name)%string;
        EvTorchGc; EvGcCollect ]
      ++ trace w.
Proof.
  intros Hl.
  destruct (load_dino_model_miss_ok e name (snd (clear_dino_cache w)) eq_refl Hl)
    as (info & args & built & ckpt & sd & n & Hi & _ & _ & _ & _ & _ & Hh & ->).
  simpl in Hh. subst h. repeat split.
  - apply nth_error_None. lia.
  - exists info. split; [exact Hi|reflexivity].
Qed.

(** X5. The module a successful load returns is in evaluation mode; it is
    on the device whenever it was just built or the host runs in low-memory
    mode (a cached module is otherwise returned where it is). *)
Theorem load_dino_model_returns_eval (e : env) (name : string) (w w1 : world)
    (h : handle) (m : module_state Obj) :
  load_dino_model e name w = (Ok h, w1) ->
  nth_error (modules w1) h = Some m ->
  training m = false /\
  (lowvram e = true \/ dict_get name (dino_model_cache w) = None ->
   placed_on m = device e) /\
  (lowvram e = false ->
   forall m0, dict_get name (dino_model_cache w) = Some h ->
              nth_error (modules w) h = Some m0 ->
              placed_on m = placed_on m0).
Proof.
  intros Hl Hm.
  destruct (dict_get name (dino_model_cache w)) as [h0|] eqn:Hget.
  - rewrite (load_dino_model_hit e _ _ Hget) in Hl.
    injection Hl as <- <-. simpl in Hm.
    rewrite nth_error_upd_same in Hm.
    destruct (lowvram e) eqn:Hlow.
    + rewrite nth_error_upd_same in Hm.
      destruct (nth_error (modules w) h0) as [m0|]; [|discriminate].
      injection Hm as <-. repeat split; auto. discriminate.
    + destruct (nth_error (modules w) h0) as [m0|] eqn:Hm0; [|discriminate].
      injection Hm as <-. repeat split.
      * intros [H|H]; discriminate.
      * intros _ m1 _ H1. now injection H1 as <-.
  - destruct (load_dino_model_miss_ok e name w Hget Hl)
      as (info & args & built & ckpt & sd & n & _ & _ & _ & _ & _ & _ & Hh & ->).
    simpl in Hm. subst h. rewrite nth_error_snoc in Hm. injection Hm as <-.
    repeat split; auto. intros _ m0 H. discriminate.
Qed.

(** X6. [load_dino_model] changes no module but the one it returns: a
    cached hit touches only the cached module, and a miss, whether it
    succeeds or raises, leaves every existing module as it was. *)
Theorem load_dino_model_frame (e : env) (name : string) (w : world)
    (r : handle) :
  (r < List.length (modules w))%nat ->
  dict_get name (dino_model_cache w) <> Some r ->
  nth_error (modules (snd (load_dino_model e name w))) r
  = nth_error (modules w) r.
Proof.
  intros Hr Hne.
  destruct (dict_get name (dino_model_cache w)) as [h0|] eqn:Hget.
  - rewrite (load_dino_model_hit e _ _ Hget). simpl.
    assert (h0 <> r) by congruence.
    rewrite nth_error_upd_other by assumption.
    destruct (lowvram e); [now rewrite nth_error_upd_other|reflexivity].
  - clear Hne. unfold load_dino_model. run. rewrite Hget. run.
    repeat step; cbn [snd modules];
      rewrite ?nth_error_upd_other by lia;
      rewrite ?nth_error_app1 by lia; reflexivity.
Qed.

End CacheMore.

(** ** Cached models stay ready *)

Section ReadyProps.

Context {T : Type} {ST : Scalar T} {Obj : Type}.

Local Abbreviation env := (env T Obj).
Local Abbreviation world := (world Obj).

Lemma ready_same_store (w w' : world) :
  dino_model_cache w' = dino_model_cache w ->
  modules w' = modules w ->
  cached_models_ready w -> cached_models_ready w'.
Proof.
  unfold cached_models_ready. intros -> ->. auto.
Qed.

Lemma ready_empty_cache (w : world) :
  dino_model_cache w = [] -> cached_models_ready w.
Proof.
  unfold cached_models_ready. intros ->. discriminate.
Qed.

(** Moving a module or putting it in evaluation mode keeps it ready. *)
Lemma ready_upd (w w' : world) (i : handle)
    (f : module_state Obj -> module_state Obj) :
  (forall m, training m = false -> training (f m) = false) ->
  dino_model_cache w' = dino_model_cache w ->
  modules w' = upd (modules w) i f ->
  cached_models_ready w -> cached_models_ready w'.
Proof.
  unfold cached_models_ready. intros Hf -> -> Hw name h Hget.
  destruct (Hw _ _ Hget) as (m & Hm & Ht).
  destruct (Nat.eq_dec i h) as [->|Hne].
  - rewrite nth_error_upd_same, Hm. simpl. eauto.
  - rewrite nth_error_upd_other by assumption. eauto.
Qed.

Lemma load_dino_model_ready (e : env) name (w : world) :
  cached_models_ready w -> cached_models_ready (snd (load_dino_model e name w)).
Proof.
  intros Hw.
  destruct (dict_get name (dino_model_cache w)) as [h0|] eqn:Hget.
  - rewrite (load_dino_model_hit e _ _ Hget). simpl.
    destruct (lowvram e).
    + eapply (@ready_upd {| dino_model_cache := dino_model_cache w;
                            modules := upd (modules w) h0
                                           (set_device (device e));
                            trace := trace w |} _ h0 set_eval);
        [now intros [] | reflexivity | reflexivity |].
      eapply (@ready_upd w _ h0 (set_device (device e)));
        [now intros [] | reflexivity | reflexivity | exact Hw].
    + eapply (@ready_upd w _ h0 set_eval);
        [now intros [] | reflexivity | reflexivity | exact Hw].
  - destruct (load_dino_model_miss e _ _ Hget)
      as [(x & w' & E & Hc) | (w' & E & Hc)].
    + rewrite E. simpl. now apply ready_empty_cache.
    + destruct (load_dino_model_miss_ok e name w Hget E)
        as (info & args & built & ckpt & sd & n & _ & _ & _ & _ & _ & _
            & Hh & Hw').
      rewrite E. simpl. rewrite Hw'. unfold cached_models_ready. simpl.
      intros k h. destruct (String.eqb k name); [|discriminate].
      intros Hk. injection Hk as <-.
      rewrite nth_error_snoc. eauto.
Qed.

(** [get_grounding_output] leaves the modules alone or moves the model to
    the CPU. *)
Lemma get_grounding_output_modules (e : env) model image caption thr
    (w : world) :
  modules (snd (get_grounding_output e model image caption thr w)) = modules w
  \/ modules (snd (get_grounding_output e model image caption thr w))
     = upd (modules w) model (set_device Cpu).
Proof.
  unfold get_grounding_output. run.
  repeat step; auto.
Qed.

Lemma get_grounding_output_ready (e : env) model image caption thr (w : world) :
  cached_models_ready w ->
  cached_models_ready (snd (get_grounding_output e model image caption thr w)).
Proof.
  intros Hw.
  pose proof (get_grounding_output_keeps_cache e model image caption thr w)
    as Hc.
  destruct (get_grounding_output_modules e model image caption thr w)
    as [Hm|Hm].
  - exact (@ready_same_store w _ Hc Hm Hw).
  - eapply (@ready_upd w _ model (set_device Cpu));
      [now intros [] | exact Hc | exact Hm | exact Hw].
Qed.

(** Where [dino_predict_internal] can stop: after the installer or the
    preprocessing, after [load_dino_model], or after
    [get_grounding_output]; the final collections do not touch the store. *)
Lemma dino_predict_internal_store (e : env) image name prompt thr (w : world) :
  let w' := snd (dino_predict_internal e image name prompt thr w) in
  (dino_model_cache w' = dino_model_cache w /\ modules w' = modules w) \/
  exists w1,
    dino_model_cache w1 = dino_model_cache w /\ modules w1 = modules w /\
    ((dino_model_cache w' = dino_model_cache (snd (load_dino_model e name w1)) /\
      modules w' = modules (snd (load_dino_model e name w1))) \/
     exists h t,
       fst (load_dino_model e name w1) = Ok h /\
       dino_model_cache w'
       = dino_model_cache
           (snd (get_grounding_output e h t prompt thr
                   (snd (load_dino_model e name w1)))) /\
       modules w'
       = modules
           (snd (get_grounding_output e h t prompt thr
                   (snd (load_dino_model e name w1))))).
Proof.
  cbv zeta.
  remember (dino_predict_internal e image name prompt thr w) as p eqn:Hp.
  revert Hp. unfold dino_predict_internal.
  destruct (install_keeps_store e w) as [Hc Hm].
  unfold bind at 1.
  destruct (install_goundingdino e w) as [[b|x] w1]; simpl in Hc, Hm;
    [|intros ->; left; split; assumption].
  destruct b; simpl; [|intros ->; left; split; assumption].
  run.
  destruct (pil_convert e image "RGB") as [rgb|x];
    [|intros ->; left; split; assumption].
  destruct (transform e rgb) as [t|x];
    [|intros ->; left; split; assumption].
  intros Hp. right.
  match type of Hp with
  | context [load_dino_model e name ?w0] => exists w0
  end.
  split; [exact Hc|]. split; [exact Hm|].
  revert Hp.
  match goal with
  | |- context [load_dino_model e name ?w0] =>
      destruct (load_dino_model e name w0) as [[h|x] w2]
  end; [|intros ->; left; split; reflexivity].
  intros Hp. right. exists h, t. split; [reflexivity|]. revert Hp. simpl.
  destruct (get_grounding_output e h t prompt thr w2) as [[kept|x] w3];
    intros ->; simpl; auto.
Qed.

Lemma dino_predict_internal_ready (e : env) image name prompt thr (w : world) :
  cached_models_ready w ->
  cached_models_ready (snd (dino_predict_internal e image name prompt thr w)).
Proof.
  intros Hw.
  destruct (dino_predict_internal_store e image name prompt thr w)
    as [[Hc Hm] | (w1 & Hc1 & Hm1 & [[Hc Hm] | (h & t & _ & Hc & Hm)])].
  - exact (@ready_same_store w _ Hc Hm Hw).
  - apply (@ready_same_store _ _ Hc Hm). apply load_dino_model_ready.
    exact (@ready_same_store w _ Hc1 Hm1 Hw).
  - apply (@ready_same_store _ _ Hc Hm). apply get_grounding_output_ready.
    apply load_dino_model_ready. exact (@ready_same_store w _ Hc1 Hm1 Hw).
Qed.

(** X7. In every state the module can reach, each cached handle refers to
    an existing module object that is in evaluation mode: nothing the
    module does puts a cached model back into training mode. *)
Theorem reachable_cached_models_ready (w : world) :
  reachable (T := T) w -> cached_models_ready w.
Proof.
  induction 1.
  - now apply ready_empty_cache.
  - destruct (install_keeps_store e w) as [Hc Hm].
    exact (@ready_same_store w _ Hc Hm IHreachable).
  - now apply ready_empty_cache.
  - now apply load_dino_model_ready.
  - now apply get_grounding_output_ready.
  - now apply dino_predict_internal_ready.
Qed.

End ReadyProps.

(** ** More on the inference pipeline *)

Section PipelineMore.

Context {T : Type} {ST : Scalar T} {Obj : Type}.

Local Abbreviation env := (env T Obj).
Local Abbreviation world := (world Obj).

(** X8. What [get_grounding_output] does to the state when it returns:
    the cache is not touched; in low-memory mode the model is moved to the
    CPU after the forward pass, otherwise no module changes; the trace
    gains the forward pass on the normalized caption (and the move). *)
Theorem get_grounding_output_offloads (e : env) model image caption thr
    (w w' : world) kept :
  get_grounding_output e model image caption thr w = (Ok kept, w') ->
  dino_model_cache w' = dino_model_cache w /\
  modules w' =
    (if lowvram e then upd (modules w) model (set_device Cpu)
     else modules w) /\
  trace w' =
    (if lowvram e then [EvModuleTo model Cpu] else []) ++
    EvForward model (normalize_caption caption) :: trace w.
Proof.
  unfold get_grounding_output. run.
  repeat step; intros H; try discriminate; injection H as _ <-;
    repeat split; reflexivity.
Qed.

(** X9. A forward pass that raises: [get_grounding_output] raises the same
    exception straight away, so even in low-memory mode the model is not
    moved off the device; cache and modules are as before. *)
Theorem get_grounding_output_forward_raises (e : env) model image caption thr
    (w : world) m x :
  nth_error (modules w) model = Some m ->
  forward e m (tensor_to e image (device e)) (normalize_caption caption)
  = Raise x ->
  get_grounding_output e model image caption thr w =
  (Raise x,
   {| dino_model_cache := dino_model_cache w;
      modules := modules w;
      trace := EvForward model (normalize_caption caption) :: trace w |}).
Proof.
  intros Hm Hf. unfold get_grounding_output. run. rewrite Hm. run.
  rewrite Hf. reflexivity.
Qed.

(** Everything that happened when [dino_predict_internal] returned boxes. *)
Lemma dino_predict_internal_ok_inv (e : env) image name prompt thr
    (w w' : world) bs ok :
  dino_predict_internal e image name prompt thr w = (Ok (Some bs, ok), w') ->
  exists w1 rgb t h w2 kept w3,
    install_goundingdino e w = (Ok true, w1) /\
    pil_convert e image "RGB" = Ok rgb /\
    transform e rgb = Ok t /\
    load_dino_model e name (snd (print "Running GroundingDINO Inference" w1))
    = (Ok h, w2) /\
    get_grounding_output e h t prompt thr w2 = (Ok kept, w3) /\
    bs = map (rescale_row (fst (pil_size e image)) (snd (pil_size e image)))
             kept /\
    dino_model_cache w' = dino_model_cache w3 /\
    modules w' = modules w3 /\
    trace w' = EvTorchGc :: EvGcCollect :: trace w3.
Proof.
  unfold dino_predict_internal. unfold bind at 1.
  destruct (install_goundingdino e w) as [[[|]|x] w1] eqn:Hi; simpl;
    try discriminate.
  run.
  destruct (pil_convert e image "RGB") as [rgb|x] eqn:Hc; [|discriminate].
  destruct (transform e rgb) as [t|x] eqn:Ht; [|discriminate].
  match goal with
  | |- context [load_dino_model e name ?w0] =>
      destruct (load_dino_model e name w0) as [[h|x] w2] eqn:Hl
  end; [|discriminate].
  destruct (get_grounding_output e h t prompt thr w2) as [[kept|x] w3] eqn:Hg;
    [|discriminate].
  intros H. injection H as <- _ <-.
  exists w1, rgb, t, h, w2, kept, w3. repeat split; auto.
  apply rescale_loop_map.
Qed.

(** X10. When [dino_predict_internal] returns boxes, the model it was asked
    for is the cached one, the final [gc.collect()] and [torch_gc()] were
    the last things done, and if the cache held at most one model before it
    now holds exactly the requested one. *)
Theorem predict_leaves_model_cached (e : env) image name prompt thr
    (w w' : world) bs ok :
  dino_predict_internal e image name prompt thr w = (Ok (Some bs, ok), w') ->
  exists h tr,
    dict_get name (dino_model_cache w') = Some h /\
    trace w' = EvTorchGc :: EvGcCollect :: tr /\
    (single_slot w -> dino_model_cache w' = [(name, h)]).
Proof.
  intros Hp.
  destruct (dino_predict_internal_ok_inv _ _ _ _ _ _ Hp)
    as (w1 & rgb & t & h & w2 & kept & w3 & Hi & _ & _ & Hl & Hg & _
        & Hc & _ & Htr).
  pose proof (get_grounding_output_keeps_cache e h t prompt thr w2) as Hc3.
  rewrite Hg in Hc3. simpl in Hc3.
  destruct (load_dino_model_ok_shape _ _ _ Hl) as (Hget & _).
  destruct (install_keeps_store e w) as [Hc1 _].
  rewrite Hi in Hc1. simpl in Hc1.
  exists h, (trace w3). rewrite Hc, Hc3. repeat split; auto.
  intros Hs.
  assert (Hs2 : single_slot w2).
  { change w2 with (snd (Ok h, w2)). rewrite <- Hl.
    apply load_dino_model_single_slot. unfold single_slot in *. simpl.
    now rewrite Hc1. }
  unfold single_slot in Hs2.
  destruct (dino_model_cache w2) as [|[k v] [|p c]]; simpl in *;
    try discriminate; try lia.
  destruct (String.eqb_spec name k); [|discriminate].
  injection Hget as ->. now subst.
Qed.

(** X11. The image is preprocessed before the model is loaded: when the
    conversion to RGB or the transform raises, [dino_predict_internal]
    raises the same exception without having called [load_dino_model], so
    the cache and the modules are untouched. *)
Theorem predict_preprocessing_raises (e : env) image name prompt thr
    (w w1 : world) x :
  install_goundingdino e w = (Ok true, w1) ->
  pil_convert e image "RGB" = Raise x \/
  (exists rgb, pil_convert e image "RGB" = Ok rgb /\ transform e rgb = Raise x) ->
  dino_predict_internal e image name prompt thr w =
  (Raise x, snd (print "Running GroundingDINO Inference" w1)) /\
  dino_model_cache w1 = dino_model_cache w /\
  modules w1 = modules w.
Proof.
  intros Hi Hfail.
  destruct (install_keeps_store e w) as [Hc1 Hm1].
  rewrite Hi in Hc1, Hm1. simpl in Hc1, Hm1.
  split; [|split; assumption].
  unfold dino_predict_internal. unfold bind at 1. rewrite Hi. simpl. run.
  destruct Hfail as [Hc | (rgb & Hc & Ht)]; rewrite Hc; run;
    [reflexivity|]. rewrite Ht. reflexivity.
Qed.

(** X12. No cleanup on failure: when [get_grounding_output] raises after
    the model was loaded, [dino_predict_internal] raises the same exception
    in the state reached, without the final [gc.collect()] and
    [torch_gc()], and the model stays cached. *)
Theorem predict_inference_raises (e : env) image name prompt thr
    (w w1 w2 w3 : world) rgb t h x :
  install_goundingdino e w = (Ok true, w1) ->
  pil_convert e image "RGB" = Ok rgb ->
  transform e rgb = Ok t ->
  load_dino_model e name (snd (print "Running GroundingDINO Inference" w1))
  = (Ok h, w2) ->
  get_grounding_output e h t prompt thr w2 = (Raise x, w3) ->
  dino_predict_internal e image name prompt thr w = (Raise x, w3) /\
  dict_get name (dino_model_cache w3) = Some h.
Proof.
  intros Hi Hc Ht Hl Hg. split.
  - unfold dino_predict_internal. unfold bind at 1. rewrite Hi. simpl.
    revert Hl. run. rewrite Hc, Ht. intros ->. rewrite Hg. reflexivity.
  - pose proof (get_grounding_output_keeps_cache e h t prompt thr w2) as Hk.
    rewrite Hg in Hk. simpl in Hk. rewrite Hk.
    exact (proj1 (load_dino_model_ok_shape _ _ _ Hl)).
Qed.

End PipelineMore.

(** ** More on filtering *)

Section FilterMore.

Context {T : Type} {ST : Scalar T}.

Lemma max_dim1_ok_inv (t : list (list T)) (ms : list T) :
  max_dim1 t = Ok ms ->
  Forall (fun row => row <> []) t /\ List.length ms = List.length t.
Proof.
  revert ms; induction t as [|row t IH]; simpl; intros ms H.
  - injection H as <-. split; [constructor|reflexivity].
  - destruct row as [|x row]; [discriminate|]. simpl in H.
    destruct (max_dim1 t) as [ms'|]; [|discriminate]. simpl in H.
    injection H as <-. destruct (IH _ eq_refl) as [Hall Hlen].
    split; [constructor; [discriminate|exact Hall]|simpl; now rewrite Hlen].
Qed.

Lemma mask_index_ok_inv {A : Type} (xs : list A) (mask : list bool) r :
  mask_index xs mask = Ok r -> List.length xs = List.length mask.
Proof.
  revert mask r; induction xs as [|x xs IH]; intros [|b mask] r H;
    simpl in *; try discriminate; auto.
  destruct (mask_index xs mask) as [r'|] eqn:E; [|discriminate].
  now rewrite (IH _ _ E).
Qed.

Lemma combine_fst_snd {A B : Type} (l : list (A * B)) :
  combine (map fst l) (map snd l) = l.
Proof.
  induction l as [|[a b] l IH]; simpl; [reflexivity|now rewrite IH].
Qed.

Lemma filter_filter_imp {A : Type} (p q : A -> bool) (l : list A) :
  (forall x, p x = true -> q x = true) ->
  filter p (filter q l) = filter p l.
Proof.
  intros Hpq. induction l as [|x l IH]; simpl; [reflexivity|].
  destruct (q x) eqn:Hq; simpl.
  - now rewrite IH.
  - destruct (p x) eqn:Hp; [|exact IH].
    rewrite (Hpq _ Hp) in Hq. discriminate.
Qed.

(** The filter returns only on well-shaped outputs. *)
Lemma filter_output_ok_inv (logits : list (list T)) (boxes : list (box T))
    (thr : T) r :
  filter_output logits boxes thr = Ok r ->
  List.length logits = List.length boxes /\
  Forall (fun row => row <> []) logits.
Proof.
  unfold filter_output.
  destruct (max_dim1 logits) as [ms|] eqn:Hm; [|discriminate]. simpl.
  destruct (max_dim1_ok_inv _ Hm) as [Hall Hlen].
  destruct (mask_index logits _) as [l|]; [|discriminate]. simpl.
  destruct (mask_index boxes _) as [k|] eqn:Hk; [|discriminate].
  apply mask_index_ok_inv in Hk. rewrite length_map in Hk.
  intros _. split; [congruence|exact Hall].
Qed.

(** What the filter keeps is cut out of the model output. *)
Lemma filter_output_kept (logits : list (list T)) (boxes : list (box T))
    (thr : T) l k :
  filter_output logits boxes thr = Ok (l, k) ->
  List.length l = List.length k /\
  (List.length k <= List.length boxes)%nat /\
  (forall b, In b k -> In b boxes).
Proof.
  intros Hr. destruct (filter_output_ok_inv _ _ _ Hr) as [Hlen Hall].
  rewrite (@filter_output_spec _ _ logits boxes thr Hlen Hall) in Hr.
  injection Hr as <- <-. rewrite !length_map. split; [reflexivity|].
  split.
  - etransitivity; [apply filter_length_le|].
    rewrite length_combine. lia.
  - intros b Hb. apply in_map_iff in Hb.
    destruct Hb as ([row b'] & <- & Hin).
    apply filter_In in Hin. destruct Hin as [Hin _].
    exact (in_combine_r _ _ _ _ Hin).
Qed.

(** X13. The filter returns exactly on well-shaped outputs: as many
    confidence rows as boxes, and no row without classes; otherwise it
    raises.  When it returns, it keeps as many confidence rows as boxes, at
    most one per query, and every kept box is one of the model's. *)
Theorem filter_output_returns_iff (logits : list (list T))
    (boxes : list (box T)) (thr : T) :
  ((exists r, filter_output logits boxes thr = Ok r) <->
   List.length logits = List.length boxes /\
   Forall (fun row => row <> []) logits) /\
  (forall l k,
      filter_output logits boxes thr = Ok (l, k) ->
      List.length l = List.length k /\
      (List.length k <= List.length boxes)%nat /\
      (forall b, In b k -> In b boxes)).
Proof.
  split; [split|].
  - intros [r Hr]. exact (filter_output_ok_inv _ _ _ Hr).
  - intros [Hlen Hall]. eexists.
    exact (@filter_output_spec _ _ logits boxes thr Hlen Hall).
  - intros l k. apply filter_output_kept.
Qed.

End FilterMore.

(** X14. Filtering composes: filtering what a first pass kept with a higher
    threshold gives what filtering the model output with that threshold
    gives.  In binary32. *)
Theorem refilter_with_higher_threshold (logits : list (list binary32))
    (boxes : list (box binary32)) (t1 t2 : binary32) l1 k1 :
  SFltb t1 t2 = true ->
  filter_output logits boxes t1 = Ok (l1, k1) ->
  filter_output l1 k1 t2 = filter_output logits boxes t2.
Proof.
  intros Hlt H1.
  destruct (filter_output_ok_inv _ _ _ H1) as [Hlen Hall].
  rewrite (@filter_output_spec _ _ logits boxes t1 Hlen Hall) in H1.
  injection H1 as <- <-.
  rewrite (@filter_output_spec _ _ logits boxes t2 Hlen Hall).
  rewrite filter_output_spec.
  - rewrite combine_fst_snd.
    rewrite filter_filter_imp; [reflexivity|].
    intros [row b]. unfold keeps. simpl.
    destruct (row_max row) as [m|]; [|discriminate].
    intros Hm. exact (SFltb_trans _ _ _ Hlt Hm).
  - now rewrite !length_map.
  - apply Forall_map. apply Forall_forall. intros [row b] Hin.
    apply filter_In in Hin. destruct Hin as [Hin _].
    apply in_combine_l in Hin. simpl.
    rewrite Forall_forall in Hall. now apply Hall.
Qed.

(** ** Caption normalisation *)

Lemma lower_ascii_idem (c : ascii) : lower_ascii (lower_ascii c) = lower_ascii c.
Proof. destruct c as [[] [] [] [] [] [] [] []]; reflexivity. Qed.

Lemma is_space_lower_ascii (c : ascii) : is_space (lower_ascii c) = is_space c.
Proof. destruct c as [[] [] [] [] [] [] [] []]; reflexivity. Qed.

Lemma lower_idem (s : string) : lower (lower s) = lower s.
Proof.
  induction s as [|c s IH]; simpl; [reflexivity|].
  now rewrite lower_ascii_idem, IH.
Qed.

Lemma lower_app (s s' : string) : lower (s ++ s') = (lower s ++ lower s')%string.
Proof.
  induction s as [|c s IH]; simpl; [reflexivity|now rewrite IH].
Qed.

Lemma lower_lstrip (s : string) : lower (lstrip s) = lstrip (lower s).
Proof.
  induction s as [|c s IH]; simpl; [reflexivity|].
  rewrite is_space_lower_ascii. destruct (is_space c); [exact IH|reflexivity].
Qed.

Lemma lower_rstrip (s : string) : lower (rstrip s) = rstrip (lower s).
Proof.
  induction s as [|c s IH]; simpl; [reflexivity|].
  rewrite <- IH, is_space_lower_ascii.
  destruct (rstrip s) as [|d r]; simpl; [|reflexivity].
  destruct (is_space c); reflexivity.
Qed.

Lemma rstrip_idem (s : string) : rstrip (rstrip s) = rstrip s.
Proof.
  induction s as [|c s IH]; simpl; [reflexivity|].
  destruct (rstrip s) as [|d r] eqn:E.
  - destruct (is_space c) eqn:Hc; simpl; [reflexivity|now rewrite Hc].
  - change (rstrip (String c (String d r)))
      with (match rstrip (String d r) with
            | EmptyString =>
                if is_space c then EmptyString else String c EmptyString
            | r' => String c r'
            end).
    now rewrite IH.
Qed.

(** A string cut on the left is empty or starts with a visible character,
    and cutting it on the right keeps that character. *)
Lemma lstrip_head (s : string) :
  lstrip s = EmptyString \/
  exists c r, lstrip s = String c r /\ is_space c = false.
Proof.
  induction s as [|c s IH]; simpl; [now left|].
  destruct (is_space c) eqn:Hc; [exact IH|]. right. now exists c, s.
Qed.

Lemma rstrip_cons_visible (c : ascii) (s : string) :
  is_space c = false -> exists r, rstrip (String c s) = String c r.
Proof.
  intros Hc. simpl. destruct (rstrip s) as [|d r].
  - rewrite Hc. now exists EmptyString.
  - now exists (String d r).
Qed.

Lemma strip_head (s : string) :
  strip s = EmptyString \/
  exists c r, strip s = String c r /\ is_space c = false.
Proof.
  unfold strip. destruct (lstrip_head s) as [->|(c & r & -> & Hc)].
  - now left.
  - right. destruct (@rstrip_cons_visible c r Hc) as (r' & ->).
    now exists c, r'.
Qed.

Lemma lstrip_visible (s : string) :
  (s = EmptyString \/ exists c r, s = String c r /\ is_space c = false) ->
  lstrip s = s.
Proof.
  intros [->|(c & r & -> & Hc)]; simpl; [reflexivity|now rewrite Hc].
Qed.

Lemma strip_idem (s : string) : strip (strip s) = strip s.
Proof.
  unfold strip at 1. rewrite (@lstrip_visible (strip s) (strip_head s)).
  unfold strip. apply rstrip_idem.
Qed.

Lemma rstrip_snoc_visible (s : string) (c : ascii) :
  is_space c = false ->
  rstrip (s ++ String c EmptyString) = (s ++ String c EmptyString)%string.
Proof.
  intros Hc. induction s as [|d s IH]; simpl.
  - now rewrite Hc.
  - simpl in IH. rewrite IH. destruct s; reflexivity.
Qed.

Lemma strip_snoc_visible (s : string) (c : ascii) :
  is_space c = false ->
  strip (strip s ++ String c EmptyString)
  = (strip s ++ String c EmptyString)%string.
Proof.
  intros Hc. unfold strip at 1.
  rewrite lstrip_visible.
  - now apply rstrip_snoc_visible.
  - destruct (strip_head s) as [->|(d & r & -> & Hd)]; right; simpl; eauto.
Qed.

Lemma endswith_char_snoc (s : string) (c : ascii) :
  endswith_char c (s ++ String c EmptyString) = true.
Proof.
  induction s as [|d s IH]; simpl.
  - apply Ascii.eqb_refl.
  - destruct (s ++ String c EmptyString)%string eqn:E; [|exact IH].
    destruct s; discriminate.
Qed.

(** X15. The caption handed to the model always ends with a period, has no
    ASCII capital and no surrounding whitespace, and normalising is
    idempotent: a caption that went through it comes out unchanged. *)
Theorem normalize_caption_idempotent (caption : string) :
  endswith_char "."%char (normalize_caption caption) = true /\
  lower (normalize_caption caption) = normalize_caption caption /\
  strip (normalize_caption caption) = normalize_caption caption /\
  normalize_caption (normalize_caption caption) = normalize_caption caption.
Proof.
  assert (Hlow : lower (strip (lower caption)) = strip (lower caption)).
  { unfold strip. now rewrite lower_rstrip, lower_lstrip, lower_idem. }
  assert (H : endswith_char "."%char (normalize_caption caption) = true /\
              lower (normalize_caption caption) = normalize_caption caption /\
              strip (normalize_caption caption) = normalize_caption caption).
  { unfold normalize_caption.
    destruct (endswith_char "."%char (strip (lower caption))) eqn:E; simpl.
    - rewrite E, Hlow, strip_idem. auto.
    - rewrite endswith_char_snoc, lower_app, Hlow.
      rewrite strip_snoc_visible by reflexivity. auto. }
  destruct H as (Hend & Hl & Hs). repeat split; auto.
  unfold normalize_caption at 1. rewrite Hl, Hs, Hend. reflexivity.
Qed.

(** ** More on drawing *)

Section RendererMore.

Context {Img : Type}.

Lemma draw_box_frame (cv : cv2_api Img) col thickness show_index image idx b
    (heap : list Img) :
  List.length (draw_box cv col thickness show_index image idx b heap)
  = List.length heap /\
  forall r, r <> image ->
            nth_error (draw_box cv col thickness show_index image idx b heap) r
            = nth_error heap r.
Proof.
  destruct b as [[[x y] w] h]. unfold draw_box.
  destruct show_index; rewrite ?upd_length; split; auto; intros r Hr;
    rewrite ?nth_error_upd_other by congruence; reflexivity.
Qed.

Lemma draw_boxes_frame (cv : cv2_api Img) col thickness show_index image idx
    boxes (heap : list Img) :
  List.length (draw_boxes cv col thickness show_index image idx boxes heap)
  = List.length heap /\
  forall r, r <> image ->
            nth_error (draw_boxes cv col thickness show_index image idx boxes
                                  heap) r
            = nth_error heap r.
Proof.
  revert idx heap; induction boxes as [|b boxes IH]; intros idx heap; simpl.
  - auto.
  - destruct (IH (S idx) (draw_box cv col thickness show_index image idx b heap))
      as [Hlen Hfr].
    destruct (draw_box_frame cv col thickness show_index image idx b heap)
      as [Hlen' Hfr'].
    split; [congruence|]. intros r Hr. now rewrite Hfr, Hfr'.
Qed.

(** X16. [show_boxes] with a box list, whatever it holds and whatever the
    options, draws on a new object only: the result is a handle that did
    not exist before, and the input image and every other existing object
    are exactly as they were. *)
Theorem show_boxes_leaves_input (cv : cv2_api Img) (image_np : handle)
    (boxes : list (Z * Z * Z * Z)) (col : color) (thickness : Z)
    (show_index : bool) (heap : list Img) :
  (image_np < List.length heap)%nat ->
  exists heap',
    show_boxes cv image_np (Some boxes) col thickness show_index heap
    = (Ok (List.length heap), heap') /\
    List.length heap' = S (List.length heap) /\
    forall r, (r < List.length heap)%nat ->
              nth_error heap' r = nth_error heap r.
Proof.
  intros Hin. unfold show_boxes, deepcopy.
  destruct (nth_error heap image_np) as [v|] eqn:Hv;
    [|apply nth_error_None in Hv; lia].
  eexists. split; [reflexivity|].
  destruct (draw_boxes_frame cv col thickness show_index (List.length heap)
              0%nat boxes (heap ++ [v])) as [Hlen Hfr].
  split.
  - rewrite Hlen, length_app. simpl. lia.
  - intros r Hr. rewrite Hfr by lia. now apply nth_error_app1.
Qed.

(** Without index labels the loop folds [cv2.rectangle] over the boxes. *)
Lemma draw_boxes_plain (cv : cv2_api Img) col thickness image idx boxes
    (heap : list Img) :
  draw_boxes cv col thickness false image idx boxes heap
  = upd heap image
        (fun im =>
           fold_left (fun im b =>
                        let '(x, y, w, h) := b in
                        rectangle cv im (x, y) (w, h) col thickness)
                     boxes im).
Proof.
  revert idx heap; induction boxes as [|b boxes IH]; intros idx heap; simpl.
  - clear. induction heap as [|x heap IH] in image |- *; destruct image;
      simpl; auto. now rewrite <- IH.
  - rewrite IH. destruct b as [[[x y] w] h]. unfold draw_box.
    now rewrite upd_upd.
Qed.

Lemma show_boxes_plain (cv : cv2_api Img) image_np boxes col thickness
    (heap : list Img) v :
  nth_error heap image_np = Some v ->
  show_boxes cv image_np (Some boxes) col thickness false heap
  = (Ok (List.length heap),
     heap ++ [fold_left (fun im b =>
                           let '(x, y, w, h) := b in
                           rectangle cv im (x, y) (w, h) col thickness)
                        boxes v]).
Proof.
  intros Hv. unfold show_boxes, deepcopy. rewrite Hv.
  rewrite draw_boxes_plain. now rewrite upd_snoc_last.
Qed.

(** X17. Without index labels drawing composes: drawing [boxes2] on the
    result of drawing [boxes1] gives an image with the same content as
    drawing [boxes1 ++ boxes2] at once. *)
Theorem show_boxes_compose (cv : cv2_api Img) (image_np : handle)
    (boxes1 boxes2 : list (Z * Z * Z * Z)) (col : color) (thickness : Z)
    (heap : list Img) :
  (image_np < List.length heap)%nat ->
  exists i1 h1 i2 h2 i12 h12,
    show_boxes cv image_np (Some boxes1) col thickness false heap
    = (Ok i1, h1) /\
    show_boxes cv i1 (Some boxes2) col thickness false h1 = (Ok i2, h2) /\
    show_boxes cv image_np (Some (boxes1 ++ boxes2)) col thickness false heap
    = (Ok i12, h12) /\
    nth_error h2 i2 = nth_error h12 i12 /\
    nth_error h12 i12 <> None.
Proof.
  intros Hin.
  destruct (nth_error heap image_np) as [v|] eqn:Hv;
    [|apply nth_error_None in Hv; lia].
  do 6 eexists.
  split; [apply (show_boxes_plain cv image_np boxes1 col thickness heap Hv)|].
  split; [apply show_boxes_plain; apply nth_error_snoc|].
  split; [apply (show_boxes_plain cv image_np (boxes1 ++ boxes2) col thickness
                   heap Hv)|].
  rewrite !nth_error_snoc, fold_left_app. split; [reflexivity|discriminate].
Qed.

End RendererMore.

(** ** More on the box transform, in exact arithmetic *)

(** X18. Geometry of the transform: the pixel box is [w W] wide and [h H]
    high and is centred at [(cx W, cy H)]. *)
Theorem rescale_row_geometry (W H : Z) (cx cy w h : Q) :
  let '(x0, y0, x1, y1) := rescale_row W H (cx, cy, w, h) in
  x1 - x0 == w * inject_Z W /\
  y1 - y0 == h * inject_Z H /\
  (x0 + x1) / 2 == cx * inject_Z W /\
  (y0 + y1) / 2 == cy * inject_Z H.
Proof.
  simpl. repeat split; field.
Qed.

(** X19. A normalized box that lies inside the unit square is mapped inside
    the image: [0 <= x0], [x1 <= W], [0 <= y0], [y1 <= H]. *)
Theorem rescale_row_inside_image (W H : Z) (cx cy w h : Q) :
  (0 <= W)%Z -> (0 <= H)%Z ->
  w / 2 <= cx -> cx + w / 2 <= 1 ->
  h / 2 <= cy -> cy + h / 2 <= 1 ->
  let '(x0, y0, x1, y1) := rescale_row W H (cx, cy, w, h) in
  0 <= x0 /\ x1 <= inject_Z W /\ 0 <= y0 /\ y1 <= inject_Z H.
Proof.
  intros HW HH Hx0 Hx1 Hy0 Hy1. simpl.
  rewrite Zle_Qle in HW, HH.
  change (inject_Z 2) with 2.
  generalize dependent (inject_Z W). generalize dependent (inject_Z H).
  intros qH HH qW HW.
  assert (A1 : 0 <= (cx - w / 2) * qW)
    by (apply Qmult_le_0_compat; [lra|exact HW]).
  assert (A2 : 0 <= (1 - (cx + w / 2)) * qW)
    by (apply Qmult_le_0_compat; [lra|exact HW]).
  assert (A3 : 0 <= (cy - h / 2) * qH)
    by (apply Qmult_le_0_compat; [lra|exact HH]).
  assert (A4 : 0 <= (1 - (cy + h / 2)) * qH)
    by (apply Qmult_le_0_compat; [lra|exact HH]).
  repeat split.
  - setoid_replace (cx * qW - w * qW / 2) with ((cx - w / 2) * qW) by field.
    exact A1.
  - apply Qle_minus_iff.
    setoid_replace (qW + - (w * qW + (cx * qW - w * qW / 2)))
      with ((1 - (cx + w / 2)) * qW) by field.
    exact A2.
  - setoid_replace (cy * qH - h * qH / 2) with ((cy - h / 2) * qH) by field.
    exact A3.
  - apply Qle_minus_iff.
    setoid_replace (qH + - (h * qH + (cy * qH - h * qH / 2)))
      with ((1 - (cy + h / 2)) * qH) by field.
    exact A4.
Qed.

(** ** Where the returned boxes come from *)

Section Provenance.

Context {T : Type} {ST : Scalar T} {Obj : Type}.

Local Abbreviation env := (env T Obj).
Local Abbreviation world := (world Obj).

Lemma get_grounding_output_ok_inv (e : env) model image caption thr
    (w w' : world) kept :
  get_grounding_output e model image caption thr w = (Ok kept, w') ->
  exists m outs logits boxes rl rb l,
    nth_error (modules w) model = Some m /\
    forward e m (tensor_to e image (device e)) (normalize_caption caption)
    = Ok outs /\
    pred_logits outs = logits :: rl /\
    pred_boxes outs = boxes :: rb /\
    filter_output (map (map (sigmoid e)) logits) boxes thr = Ok (l, kept).
Proof.
  unfold get_grounding_output. run.
  destruct (nth_error (modules w) model) as [m|]; run; [|discriminate].
  destruct (forward e m _ _) as [outs|] eqn:Hf; run; [|discriminate].
  destruct (pred_logits outs) as [|logits rl] eqn:Hl;
    [destruct (lowvram e); discriminate|].
  destruct (pred_boxes outs) as [|boxes rb] eqn:Hb;
    [destruct (lowvram e); discriminate|].
  cbn [map index0].
  destruct (filter_output (map (map (sigmoid e)) logits) boxes thr)
    as [[l k]|] eqn:Hk; [|destruct (lowvram e); discriminate].
  intros H. exists m, outs, logits, boxes, rl, rb, l.
  repeat split; auto.
  destruct (lowvram e); run; simpl in H; now injection H as <- _.
Qed.

(** X20. [dino_predict_internal] invents no box: when it returns boxes, the
    model was run on the normalized prompt and answered with as many
    confidence rows as boxes; the returned boxes are the rescaled boxes of
    the queries kept by the threshold, in the model's order; there are at
    most as many as queries, and each is the rescaling of a model box. *)
Theorem predict_boxes_come_from_model (e : env) image name prompt thr
    (w w' : world) bs ok :
  dino_predict_internal e image name prompt thr w = (Ok (Some bs, ok), w') ->
  exists m t outs logits boxes rl rb,
    forward e m (tensor_to e t (device e)) (normalize_caption prompt) = Ok outs /\
    pred_logits outs = logits :: rl /\
    pred_boxes outs = boxes :: rb /\
    List.length logits = List.length boxes /\
    bs = map (rescale_row (fst (pil_size e image)) (snd (pil_size e image)))
             (map snd (filter (keeps thr)
                         (combine (map (map (sigmoid e)) logits) boxes))) /\
    (List.length bs <= List.length boxes)%nat /\
    (forall o, In o bs ->
               exists b, In b boxes /\
                         o = rescale_row (fst (pil_size e image))
                                         (snd (pil_size e image)) b).
Proof.
  intros Hp.
  destruct (dino_predict_internal_ok_inv _ _ _ _ _ _ Hp)
    as (w1 & rgb & t & h & w2 & kept & w3 & _ & _ & _ & _ & Hg & -> & _).
  destruct (get_grounding_output_ok_inv _ _ _ _ _ _ Hg)
    as (m & outs & logits & boxes & rl & rb & l & _ & Hf & Hl & Hb & Hk).
  destruct (filter_output_ok_inv _ _ _ Hk) as [Hlen Hall].
  destruct (filter_output_kept _ _ _ Hk) as (_ & Hle & Hin).
  rewrite (@filter_output_spec _ _ _ boxes thr Hlen Hall) in Hk.
  injection Hk as _ <-.
  exists m, t, outs, logits, boxes, rl, rb.
  rewrite length_map in Hlen.
  repeat split; auto.
  - rewrite length_map. exact Hle.
  - intros o Ho. apply in_map_iff in Ho. destruct Ho as (b & <- & Hb').
    exists b. split; [now apply Hin|reflexivity].
Qed.

End Provenance.

(** ** Scenarios for the further properties *)

(** An interrupt during pip is not caught by [except Exception]: it leaves
    [install_goundingdino], and [dino_predict_internal] with it. *)
Example install_interrupted :
  install_goundingdino interrupted_env (init_world string)
  = (Raise KeyboardInterrupt,
     {| dino_model_cache := [];
        modules := [];
        trace :=
          [ EvRunPip "install git+https://github.com/IDEA-Research/GroundingDINO"
                     "sd-webui-segment-anything requirement: groundingdino" ] |}) /\
  fst (dino_predict_internal interrupted_env "photo" swint "a cat."
                             (b32_of_ratio 35 100) (init_world string))
  = Raise KeyboardInterrupt.
Proof. split; vm_compute; reflexivity. Qed.

Lemma load_dino_model_builds_witness :
  exists info,
    dict_get swint (dino_model_info low_memory_env) = Some info /\
    SLConfig_fromfile low_memory_env (config info)
    = Ok ("config " ++ config info)%string.
Proof.
  destruct (@load_dino_model_builds binary32 string low_memory_env swint
              (init_world string) loaded_world 0%nat)
    as (info & args & built & ckpt & sd & n & Hi & Hc & _).
  - reflexivity.
  - vm_compute; reflexivity.
  - exists info. split; [exact Hi|reflexivity].
Defined.

Lemma load_unknown_model_evicts_witness :
  dino_model_cache (snd (load_dino_model low_memory_env "no such model"
                           loaded_world))
  = [].
Proof.
  rewrite (@load_unknown_model_evicts binary32 string low_memory_env
             "no such model" loaded_world).
  - reflexivity.
  - vm_compute; reflexivity.
  - vm_compute; reflexivity.
Defined.

Lemma load_after_clear_rebuilds_witness :
  dino_model_cache
    (snd (load_dino_model low_memory_env swint
            (snd (clear_dino_cache loaded_world))))
  = [(swint, 1%nat)] /\
  exists info,
    dict_get swint (dino_model_info low_memory_env) = Some info /\
    trace (snd (load_dino_model low_memory_env swint
                  (snd (clear_dino_cache loaded_world))))
    = [ EvEval 1%nat; EvModuleTo 1%nat Accelerator; EvLoadStateDict 1%nat;
        EvDownload (url info) (dino_model_dir low_memory_env); EvBuildModel;
        EvFromfile (config info); EvTorchGc; EvGcCollect;
        EvPrint ("Initializing GroundingDINO " ++ swint)%string;
        EvTorchGc; EvGcCollect ]
      ++ trace loaded_world.
Proof.
  destruct (@load_after_clear_rebuilds binary32 string low_memory_env swint
              loaded_world
              (snd (load_dino_model low_memory_env swint
                      (snd (clear_dino_cache loaded_world))))
              1%nat)
    as (_ & _ & Hc & Htr).
  - vm_compute; reflexivity.
  - split; [exact Hc|exact Htr].
Defined.

Lemma load_dino_model_returns_eval_witness :
  exists m,
    nth_error (modules (snd (load_dino_model low_memory_env swint
                               loaded_world))) 0%nat = Some m /\
    training m = false /\
    placed_on m = Accelerator.
Proof.
  eexists. split; [vm_compute; reflexivity|].
  destruct (@load_dino_model_returns_eval binary32 string low_memory_env swint
              loaded_world
              (snd (load_dino_model low_memory_env swint loaded_world))
              0%nat _ ltac:(vm_compute; reflexivity)
              ltac:(vm_compute; reflexivity))
    as (Ht & Hp & _).
  split; [exact Ht|]. apply Hp. left. reflexivity.
Defined.

Lemma load_dino_model_frame_witness :
  nth_error (modules (snd (load_dino_model low_memory_env swinb loaded_world)))
            0%nat
  = nth_error (modules loaded_world) 0%nat.
Proof.
  apply (@load_dino_model_frame binary32 string low_memory_env swinb
           loaded_world 0%nat).
  - vm_compute. lia.
  - vm_compute. discriminate.
Defined.

Lemma reachable_cached_models_ready_witness :
  cached_models_ready
    (snd (dino_predict_internal low_memory_env "photo" swint "a cat."
                                (b32_of_ratio 35 100) (init_world string))).
Proof.
  apply (@reachable_cached_models_ready binary32 Scalar_binary32 string).
  apply reach_predict. apply reach_init.
Defined.

Lemma get_grounding_output_offloads_witness :
  modules (snd (get_grounding_output low_memory_env 0%nat "tensor" "A cat"
                                     (b32_of_ratio 35 100) loaded_world))
  = upd (modules loaded_world) 0%nat (set_device Cpu).
Proof.
  destruct (@get_grounding_output_offloads binary32 Scalar_binary32 string low_memory_env
              0%nat "tensor" "A cat" (b32_of_ratio 35 100) loaded_world
              (snd (get_grounding_output low_memory_env 0%nat "tensor" "A cat"
                                         (b32_of_ratio 35 100) loaded_world))
              [cat_box_b32] ltac:(vm_compute; reflexivity))
    as (_ & Hm & _).
  exact Hm.
Defined.

Lemma get_grounding_output_forward_raises_witness :
  fst (get_grounding_output oom_env 0%nat "tensor" "A cat"
                            (b32_of_ratio 35 100) loaded_world)
  = Raise (HostError "CUDA out of memory").
Proof.
  erewrite (@get_grounding_output_forward_raises binary32 Scalar_binary32 string oom_env
              0%nat "tensor" "A cat" (b32_of_ratio 35 100) loaded_world).
  - reflexivity.
  - vm_compute; reflexivity.
  - vm_compute; reflexivity.
Defined.

Lemma predict_leaves_model_cached_witness :
  exists h,
    dict_get swint
      (dino_model_cache
         (snd (dino_predict_internal (cat_env_b32 (of_Z 0)) "photo" swint
                                     "a cat." (b32_of_ratio 35 100)
                                     (init_world string))))
    = Some h.
Proof.
  edestruct (@predict_leaves_model_cached binary32 Scalar_binary32 string
               (cat_env_b32 (of_Z 0)) "photo" swint "a cat."
               (b32_of_ratio 35 100) (init_world string)
               (snd (dino_predict_internal (cat_env_b32 (of_Z 0)) "photo"
                       swint "a cat." (b32_of_ratio 35 100)
                       (init_world string))))
    as (h & tr & Hg & _).
  - vm_compute; reflexivity.
  - exists h. exact Hg.
Defined.

Lemma predict_preprocessing_raises_witness :
  fst (dino_predict_internal bad_image_env "photo" swint "a cat."
                             (b32_of_ratio 35 100) loaded_world)
  = Raise (HostError "cannot transform image").
Proof.
  destruct (@predict_preprocessing_raises binary32 Scalar_binary32 string bad_image_env
              "photo" swint "a cat." (b32_of_ratio 35 100) loaded_world
              loaded_world (HostError "cannot transform image"))
    as (Hp & _).
  - reflexivity.
  - right. eexists. split; reflexivity.
  - now rewrite Hp.
Defined.

Lemma predict_inference_raises_witness :
  fst (dino_predict_internal oom_env "photo" swint "a cat."
                             (b32_of_ratio 35 100) (init_world string))
  = Raise (HostError "CUDA out of memory").
Proof.
  edestruct (@predict_inference_raises binary32 Scalar_binary32 string oom_env "photo" swint
               "a cat." (b32_of_ratio 35 100) (init_world string))
    as (Hp & _).
  - reflexivity.
  - reflexivity.
  - reflexivity.
  - vm_compute; reflexivity.
  - vm_compute; reflexivity.
  - now rewrite Hp.
Defined.

Lemma refilter_with_higher_threshold_witness :
  filter_output [[b32_of_ratio 1 2; b32_of_ratio 1 10]] [cat_box_b32]
                (b32_of_ratio 6 10)
  = filter_output [[b32_of_ratio 1 2; b32_of_ratio 1 10]; [b32_of_ratio 1 5]]
                  [cat_box_b32; thin_box] (b32_of_ratio 6 10).
Proof.
  apply (@refilter_with_higher_threshold
           [[b32_of_ratio 1 2; b32_of_ratio 1 10]; [b32_of_ratio 1 5]]
           [cat_box_b32; thin_box] (b32_of_ratio 35 100) (b32_of_ratio 6 10)).
  - vm_compute; reflexivity.
  - vm_compute; reflexivity.
Defined.

Lemma show_boxes_leaves_input_witness :
  exists heap',
    show_boxes canvas_cv2 0%nat (Some [(1, 2, 3, 4)%Z]) default_color
               default_thickness true [[]]
    = (Ok 1%nat, heap') /\
    List.length heap' = 2%nat /\
    forall r, (r < 1)%nat -> nth_error heap' r = nth_error [[]] r.
Proof.
  apply (@show_boxes_leaves_input canvas canvas_cv2 0%nat [(1, 2, 3, 4)%Z]
           default_color default_thickness true [[]]).
  simpl. lia.
Defined.

Lemma show_boxes_compose_witness :
  exists i1 h1 i2 h2 i12 h12,
    show_boxes canvas_cv2 0%nat (Some [(1, 2, 3, 4)%Z]) default_color
               default_thickness false [[]] = (Ok i1, h1) /\
    show_boxes canvas_cv2 i1 (Some [(5, 6, 7, 8)%Z]) default_color
               default_thickness false h1 = (Ok i2, h2) /\
    show_boxes canvas_cv2 0%nat (Some ([(1, 2, 3, 4)%Z] ++ [(5, 6, 7, 8)%Z]))
               default_color default_thickness false [[]] = (Ok i12, h12) /\
    nth_error h2 i2 = nth_error h12 i12 /\
    nth_error h12 i12 <> None.
Proof.
  apply (@show_boxes_compose canvas canvas_cv2 0%nat [(1, 2, 3, 4)%Z]
           [(5, 6, 7, 8)%Z] default_color default_thickness [[]]).
  simpl. lia.
Defined.

Lemma rescale_row_inside_image_witness :
  let '(x0, y0, x1, y1) := rescale_row 640 480 cat_box_Q in
  0 <= x0 /\ x1 <= inject_Z 640 /\ 0 <= y0 /\ y1 <= inject_Z 480.
Proof.
  apply (@rescale_row_inside_image 640 480 (1 # 2) (1 # 2) (1 # 5) (2 # 5));
    try lia; vm_compute; discriminate.
Defined.

Lemma predict_boxes_come_from_model_witness :
  exists (bs boxes : list (box binary32)),
    fst (dino_predict_internal (cat_env_b32 (of_Z 0)) "photo" swint "a cat."
                               (b32_of_ratio 35 100) (init_world string))
    = Ok (Some bs, true) /\
    (List.length bs <= List.length boxes)%nat.
Proof.
  eexists.
  edestruct (@predict_boxes_come_from_model binary32 Scalar_binary32 string
               (cat_env_b32 (of_Z 0)) "photo" swint "a cat."
               (b32_of_ratio 35 100) (init_world string))
    as (m & t & outs & logits & boxes & rl & rb & _ & _ & _ & _ & _ & Hle & _).
  - vm_compute; reflexivity.
  - exists boxes. split; [vm_compute; reflexivity|exact Hle].
Defined.
